(** * AG2 documentation corpus: reply resolution, two-agent chat and corpus inventory

    The repository ships documentation pages, notebooks, blog posts and CI
    workflows of the AG2 multi-agent framework.  The framework's own Python
    modules ([ConversableAgent], [GroupChatManager], ...) are not among the
    files; what the files say about them is prose.

    - [AgentChat] models the behaviour that the pages
      [website/docs/contributor-guide/how-ag2-works/generate-reply.mdx] and
      the "Two-Agent Chat" page ([unnamed/part_003]) describe.
    - [Corpus] transcribes the inventory of the files: their paths, leading
      lines, Python definition heads and the lines the theorems read. *)

From Stdlib Require Import String Ascii List Bool Arith Lia.
From Stdlib Require Import ZArith.
From Stdlib Require Znumtheory QArith.
Import ListNotations.
Local Open Scope string_scope.
Local Open Scope list_scope.

(** The double-quote character, for lines of the corpus that contain it. *)
Definition dq : string := String (ascii_of_nat 34) EmptyString.

Module AgentChat.

(** Modelled from the spec: the message dictionaries that the framework
    passes around (generate-reply.mdx lines 56-66 and 152-173), keys in the
    order they were set. *)
Definition Message : Type := list (string * string).

Fixpoint get (key : string) (m : Message) : option string :=
  match m with
  | [] => None
  | (k, v) :: m' => if String.eqb key k then Some v else get key m'
  end.

Definition keys (m : Message) : list string := map fst m.

(** Modelled from the spec: what a reply function or [generate_reply] hands
    back: Python's [None], a string (as [default_auto_reply], generate-reply.mdx
    line 46), or a message dictionary (line 56). *)
Inductive Reply : Type :=
| NoReply
| TextReply (content : string)
| DictReply (message : Message).

Definition reply_content (r : Reply) : option string :=
  match r with
  | NoReply => None
  | TextReply s => Some s
  | DictReply m => get "content" m
  end.

(** Modelled from the spec: the values of the [summary_method] parameter of
    [initiate_chat] that [unnamed/part_003] lines 20 and 50 name. *)
Inductive SummaryMethod : Type := last_msg | reflection_with_llm.

(** Python keyword arguments with a default: [None] stands for "not passed". *)
Definition or_default {A : Type} (default : A) (arg : option A) : A :=
  match arg with
  | Some a => a
  | None => default
  end.

(** [list.insert(position, x)]: past the end it appends. *)
Fixpoint insert_at {A : Type} (position : nat) (x : A) (l : list A) : list A :=
  match position, l with
  | 0, _ => x :: l
  | S _, [] => [x]
  | S p, y :: l' => y :: insert_at p x l'
  end.

Section ReplyResolution.

(** Everything outside the agents that a reply can read or change: the
    human at the keyboard, the LLM endpoints, the code executor, the clock. *)
Variable World : Type.

(** Modelled from the spec: the reply-function signature of
    generate-reply.mdx lines 56-66.  The framework passes
    [(agent, messages, sender, config)] and expects [(final, reply)];
    [agent] and [config] are captured in the closure here, and the calls to
    the outside go through [World]. *)
Definition ReplyFunction : Type :=
  World -> list Message -> option string -> World * (bool * Reply).

Record ReplyFunc : Type := {
  reply_name : string;
  reply_func : ReplyFunction }.

(** Modelled from the spec: the hooks of generate-reply.mdx line 19, which
    "update agent and message state in preparation for the upcoming reply
    functions". *)
Definition Hook : Type := World -> list Message -> World * list Message.

(** Modelled from the spec: an agent's LLM, as the summarizer of
    [unnamed/part_003] line 50 uses it ("a call to an LLM"). *)
Record OpenAIWrapper : Type := {
  create : World -> list Message -> World * string }.

(** Modelled from the spec: the part of [ConversableAgent] that
    generate-reply.mdx and the Two-Agent Chat page talk about.  The class
    itself is not among the files. *)
Record ConversableAgent : Type := {
  name : string;
  default_auto_reply : Reply;
  hook_list : list Hook;
  reply_func_list : list ReplyFunc;
  client : option OpenAIWrapper }.

(** Modelled from the spec: the five default reply functions of
    [ConversableAgent], generate-reply.mdx lines 23-43.  What each of them
    does is left open: it may be any function of the world, the messages
    and the sender. *)
Record DefaultReplies : Type := {
  check_termination_and_human_reply : ReplyFunction;
  generate_function_call_reply : ReplyFunction;
  generate_tool_call_reply : ReplyFunction;
  generate_code_execution_reply : ReplyFunction;
  generate_llm_reply : ReplyFunction }.

(** Modelled from the spec: the reply functions of a standard agent, "done
    in order and the default functions are shown" (generate-reply.mdx line 21). *)
Definition default_reply_funcs (d : DefaultReplies) : list ReplyFunc :=
  [ {| reply_name := "Check Termination and Human Reply";
       reply_func := check_termination_and_human_reply d |};
    {| reply_name := "Generate Function Call Reply";
       reply_func := generate_function_call_reply d |};
    {| reply_name := "Generate Tool Call Reply";
       reply_func := generate_tool_call_reply d |};
    {| reply_name := "Generate Code Execution Reply";
       reply_func := generate_code_execution_reply d |};
    {| reply_name := "Generate LLM Reply";
       reply_func := generate_llm_reply d |} ].

(** The order in which generate-reply.mdx lists them. *)
Definition default_reply_order : list string :=
  [ "Check Termination and Human Reply";
    "Generate Function Call Reply";
    "Generate Tool Call Reply";
    "Generate Code Execution Reply";
    "Generate LLM Reply" ].

(** Modelled from the spec: a standard [ConversableAgent] as
    generate-reply.mdx describes it: the five default reply functions and
    the empty string as [default_auto_reply] (line 46). *)
Definition new_agent (nm : string) (d : DefaultReplies) (hooks : list Hook)
    (llm : option OpenAIWrapper) : ConversableAgent :=
  {| name := nm;
     default_auto_reply := TextReply "";
     hook_list := hooks;
     reply_func_list := default_reply_funcs d;
     client := llm |}.

(** Modelled from the spec: the hooks "are evaluated, in the order shown"
    (generate-reply.mdx line 19), each on the state the one before left. *)
Fixpoint run_hooks (hooks : list Hook) (w : World) (messages : list Message)
    : World * list Message :=
  match hooks with
  | [] => (w, messages)
  | h :: hooks' => let '(w', messages') := h w messages in run_hooks hooks' w' messages'
  end.

(** One entry per reply function that was called: its name and whether
    its reply was final. *)
Definition Evaluation : Type := (string * bool)%type.

(** Modelled from the spec: "the evaluation of the reply functions, these
    are done in order" (line 21); a reply function returns "whether the
    reply is final ([True] if final, otherwise it will continue evaluating
    the following reply functions)" (line 56). *)
Fixpoint run_reply_funcs (fs : list ReplyFunc) (w : World)
    (messages : list Message) (sender : option string)
    : World * list Evaluation * option Reply :=
  match fs with
  | [] => (w, [], None)
  | f :: fs' =>
      let '(w1, (final, reply)) := reply_func f w messages sender in
      if final then (w1, [(reply_name f, true)], Some reply)
      else
        let '(w2, evaluated, result) := run_reply_funcs fs' w1 messages sender in
        (w2, (reply_name f, false) :: evaluated, result)
  end.

(** Modelled from the spec: [ConversableAgent.generate_reply],
    generate-reply.mdx lines 15-46: the hooks, then the reply functions in
    order, then [default_auto_reply] "if none of the reply functions
    generate a final result".  Besides the reply it returns the list of
    the reply functions it called. *)
Definition generate_reply (a : ConversableAgent) (w : World)
    (messages : list Message) (sender : option string)
    : World * list Evaluation * Reply :=
  let '(w0, messages0) := run_hooks (hook_list a) w messages in
  let '(w1, evaluated, result) :=
    run_reply_funcs (reply_func_list a) w0 messages0 sender in
  (w1, evaluated, or_default (default_auto_reply a) result).

Definition evaluated_of (r : World * list Evaluation * Reply) : list Evaluation :=
  snd (fst r).

Definition reply_of (r : World * list Evaluation * Reply) : Reply := snd r.

Definition world_of (r : World * list Evaluation * Reply) : World := fst (fst r).

(** Modelled from the spec: [ConversableAgent.register_reply],
    generate-reply.mdx lines 52-56 and 106-115: [position=0] "inserts it
    at the start", [remove_other_reply_funcs=True] removes all other reply
    functions, and without a position "reply functions registered later
    will be checked earlier".  The page does not say what [trigger] does;
    it is left out. *)
Definition register_reply (a : ConversableAgent) (f : ReplyFunc)
    (position : option nat) (remove_other_reply_funcs : option bool)
    : ConversableAgent :=
  let others :=
    if or_default false remove_other_reply_funcs then [] else reply_func_list a in
  {| name := name a;
     default_auto_reply := default_auto_reply a;
     hook_list := hook_list a;
     reply_func_list := insert_at (or_default 0 position) f others;
     client := client a |}.

(** Registering several reply functions one after the other, each with
    the default position. *)
Definition register_replies (a : ConversableAgent) (fs : list ReplyFunc)
    : ConversableAgent :=
  fold_left (fun a' f => register_reply a' f None None) fs a.

(** ** Two-agent chat and its summary *)

(** The prompt of [ConversableAgent.DEFAULT_SUMMARY_PROMPT]; the page
    prints it but does not quote it. *)
Variable DEFAULT_SUMMARY_PROMPT : string.

(** What the finished chat cost in tokens and what the human typed, read
    off the world. *)
Variable token_cost : World -> nat.
Variable human_inputs : World -> list string.

(** Whose LLM wrote the summary. *)
Inductive SummaryLLM : Type := NoLLM | RecipientLLM | SenderLLM.

(** Modelled from the spec: the [ChatResult] object with "the conversation
    history, human input, and token cost" ([unnamed/part_003] line 62) and
    the summary (line 47). *)
Record ChatResult : Type := {
  chat_history : list Message;
  summary : string;
  summary_llm : SummaryLLM;
  cost : nat;
  human_input : list string }.

(** A chat-history entry as generate-reply.mdx lines 152-173 print it. *)
Definition chat_message (content role speaker : string) : Message :=
  [("content", content); ("role", role); ("name", speaker)].

(** Modelled from the spec: the sender's "chat initializer method",
    [unnamed/part_003] line 16, for a message given as a string. *)
Definition generate_init_message (sender : ConversableAgent) (message : string)
    : Reply :=
  TextReply message.

(** Modelled from the spec: the exchange of [unnamed/part_003] lines 14-18
    with [max_turns] as in the transcript of generate-reply.mdx lines
    128-173: in each turn the sender's message goes to the recipient and
    the recipient answers through [generate_reply]; from the second turn
    on the sender's message is its own [generate_reply].  The history is
    the sender's view: its own messages carry the role [assistant], the
    recipient's the role [user].  A missing reply ends the chat. *)
Fixpoint two_agent_chat (max_turns : nat) (sender recipient : ConversableAgent)
    (w : World) (history : list Message) (msg2send : Reply)
    : World * list Message :=
  match max_turns with
  | 0 => (w, history)
  | S turns =>
      match reply_content msg2send with
      | None => (w, history)
      | Some sent =>
          let history1 := history ++ [chat_message sent "assistant" (name sender)] in
          let r := generate_reply recipient w history1 (Some (name sender)) in
          match reply_content (reply_of r) with
          | None => (world_of r, history1)
          | Some answer =>
              let history2 :=
                history1 ++ [chat_message answer "user" (name recipient)] in
              match turns with
              | 0 => (world_of r, history2)
              | S _ =>
                  let r' :=
                    generate_reply sender (world_of r) history2
                      (Some (name recipient)) in
                  two_agent_chat turns sender recipient (world_of r') history2
                    (reply_of r')
              end
          end
      end
  end.

(** Modelled from the spec: the [last_msg] summary, "the last message of
    the chat" ([unnamed/part_003] line 20). *)
Definition last_msg_summary (history : list Message) : string :=
  match rev history with
  | [] => ""
  | m :: _ => or_default "" (get "content" m)
  end.

(** Modelled from the spec: the [reflection_with_llm] summary
    ([unnamed/part_003] lines 50-54): it "takes a list of messages from the
    conversation and summarize them using a call to an LLM"; it "first
    tries to use the recipient's LLM, if it is not available then it uses
    the sender's LLM".  The page is silent about two agents without any
    LLM; the model then gives the empty summary and calls nothing. *)
Definition reflection_with_llm_summary (sender recipient : ConversableAgent)
    (w : World) (prompt : string) (history : list Message)
    : World * (string * SummaryLLM) :=
  match client recipient with
  | Some llm =>
      let '(w', s) := create llm w ([("content", prompt); ("role", "system")] :: history) in
      (w', (s, RecipientLLM))
  | None =>
      match client sender with
      | Some llm =>
          let '(w', s) :=
            create llm w ([("content", prompt); ("role", "system")] :: history) in
          (w', (s, SenderLLM))
      | None => (w, ("", NoLLM))
      end
  end.

(** Modelled from the spec: the chat summarizer that processes the history
    "once the chat terminates" ([unnamed/part_003] line 20). *)
Definition summarize_chat (method : SummaryMethod)
    (sender recipient : ConversableAgent) (w : World) (prompt : string)
    (history : list Message) : World * (string * SummaryLLM) :=
  match method with
  | last_msg => (w, (last_msg_summary history, NoLLM))
  | reflection_with_llm =>
      reflection_with_llm_summary sender recipient w prompt history
  end.

(** Modelled from the spec: [ConversableAgent.initiate_chat] of the
    sender, [unnamed/part_003] lines 14-20 and 40-62.  [summary_method]
    and [summary_prompt] are keyword arguments: [None] is "not passed". *)
Definition initiate_chat (sender recipient : ConversableAgent) (w : World)
    (message : string) (max_turns : nat)
    (summary_method : option SummaryMethod) (summary_prompt : option string)
    : World * ChatResult :=
  let chat :=
    two_agent_chat max_turns sender recipient w []
      (generate_init_message sender message) in
  let s :=
    summarize_chat (or_default last_msg summary_method) sender recipient
      (fst chat) (or_default DEFAULT_SUMMARY_PROMPT summary_prompt) (snd chat) in
  (fst s,
   {| chat_history := snd chat;
      summary := fst (snd s);
      summary_llm := snd (snd s);
      cost := token_cost (fst s);
      human_input := human_inputs (fst s) |}).

End ReplyResolution.

Arguments reply_name {World} _.
Arguments reply_func {World} _.
Arguments create {World} _.
Arguments name {World} _.
Arguments default_auto_reply {World} _.
Arguments hook_list {World} _.
Arguments reply_func_list {World} _.
Arguments client {World} _.
Arguments new_agent {World}.
Arguments run_hooks {World}.
Arguments run_reply_funcs {World}.
Arguments generate_reply {World}.
Arguments evaluated_of {World}.
Arguments reply_of {World}.
Arguments world_of {World}.
Arguments register_reply {World}.
Arguments register_replies {World}.
Arguments default_reply_funcs {World}.
Arguments two_agent_chat {World}.
Arguments reflection_with_llm_summary {World}.
Arguments summarize_chat {World}.
Arguments initiate_chat {World}.
Arguments generate_init_message {World}.

End AgentChat.

(** * The calendar agent of generate-reply.mdx, lines 68-124 *)

Module CalendarExample.
Import AgentChat.

(** What the example reads from outside: the clock ([datetime.now()], as
    date-time and day of the week) and the answers of the LLM behind the
    agents that have one. *)
Record World : Type := {
  clock : list (string * string);
  llm_answers : list string }.

(** generate-reply.mdx lines 87-104: a final reply with the date and time. *)
Definition get_date_time_reply : ReplyFunction World :=
  fun w messages sender =>
    let '(current_date_time, day_of_week) := hd ("", "") (clock w) in
    ({| clock := tl (clock w); llm_answers := llm_answers w |},
     (true,
      DictReply
        [("content",
          ("The current date/time is " ++ current_date_time
             ++ " and the day is " ++ day_of_week ++ ".")%string)])).

(** A default reply function that finds nothing to do. *)
Definition not_applicable : ReplyFunction World :=
  fun w messages sender => (w, (false, NoReply)).

Definition ask_llm (w : World) : World * option string :=
  match llm_answers w with
  | [] => (w, None)
  | answer :: later => ({| clock := clock w; llm_answers := later |}, Some answer)
  end.

(** "Generate LLM Reply" of an agent that has an LLM configured. *)
Definition llm_reply : ReplyFunction World :=
  fun w messages sender =>
    match ask_llm w with
    | (w', Some answer) => (w', (true, TextReply answer))
    | (w', None) => (w', (false, NoReply))
    end.

Definition llm_client : OpenAIWrapper World :=
  {| create := fun w messages =>
       match ask_llm w with
       | (w', Some answer) => (w', answer)
       | (w', None) => (w', "")
       end |}.

Definition replies_with_llm : DefaultReplies World :=
  {| check_termination_and_human_reply := not_applicable;
     generate_function_call_reply := not_applicable;
     generate_tool_call_reply := not_applicable;
     generate_code_execution_reply := not_applicable;
     generate_llm_reply := llm_reply |}.

Definition replies_without_llm : DefaultReplies World :=
  {| check_termination_and_human_reply := not_applicable;
     generate_function_call_reply := not_applicable;
     generate_tool_call_reply := not_applicable;
     generate_code_execution_reply := not_applicable;
     generate_llm_reply := not_applicable |}.

(** Lines 83-84: [agent_bob = ConversableAgent(name="Bob")] under [llm_config]. *)
Definition agent_bob : ConversableAgent World :=
  new_agent "Bob" replies_with_llm [] (Some llm_client).

(** Lines 78-81: the calendar agent has no LLM. *)
Definition plain_calendar : ConversableAgent World :=
  new_agent "Calendar_agent" replies_without_llm [] None.

(** Lines 107-115: [register_reply(..., position=0)]. *)
Definition agent_calendar : ConversableAgent World :=
  register_reply plain_calendar
    {| reply_name := "get_date_time_reply"; reply_func := get_date_time_reply |}
    (Some 0) None.

(** The clock readings and the LLM answer of the run that lines 128-173 show. *)
Definition run_of_the_page : World :=
  {| clock := [("2025-02-25 12:43:47", "Tuesday"); ("2025-02-25 12:43:49", "Tuesday")];
     llm_answers :=
       ["Actually, February 25, 2025, is a Monday. Is there anything specific you would like to know or do with this date?";
        "Bob greets the calendar agent, which answers with the date and time."] |}.

Definition token_cost (w : World) : nat := 0.
Definition human_inputs (w : World) : list string := [].

(** Lines 117-121: [agent_bob.initiate_chat(recipient=agent_calendar,
    message="Hi Calendar Agent!", max_turns=2)]. *)
Definition chat_result : ChatResult :=
  snd (initiate_chat "Summarize the conversation." token_cost human_inputs
         agent_bob agent_calendar run_of_the_page "Hi Calendar Agent!" 2 None None).

End CalendarExample.

(** * The files of the repository *)

Module Corpus.
Local Open Scope string_scope.

(** A file of the repository: its path under the source root (the files
    whose names are not known appear as [unnamed/part_NNN]), its number of
    lines, and a transcript of some of its lines, each with its line number.
    Transcribed are: lines 1 and 2; every line that contains [def ] or
    [class ]; and the lines the statements below refer to. *)
Record SourceFile : Type := {
  path : string;
  line_count : nat;
  lines : list (nat * string) }.

Definition line (f : SourceFile) (n : nat) : string :=
  match find (fun e => Nat.eqb (fst e) n) (lines f) with
  | Some e => snd e
  | None => ""
  end.

Definition lines_between (f : SourceFile) (first last : nat) : list string :=
  map snd (filter (fun e => Nat.leb first (fst e) && Nat.leb (fst e) last) (lines f)).

(** ** Text search *)

Fixpoint contains (needle s : string) : bool :=
  if String.prefix needle s then true
  else match s with
       | EmptyString => false
       | String _ s' => contains needle s'
       end.

Definition ends_with (suffix s : string) : bool :=
  Nat.leb (String.length suffix) (String.length s)
  && String.eqb
       (substring (String.length s - String.length suffix) (String.length suffix) s)
       suffix.

Definition drop (n : nat) (s : string) : string :=
  substring n (String.length s - n) s.

Fixpoint lstrip (s : string) : string :=
  match s with
  | String c s' => if Ascii.eqb c " " then lstrip s' else s
  | EmptyString => s
  end.

Definition is_ident_char (c : ascii) : bool :=
  let n := nat_of_ascii c in
  (Nat.leb 48 n && Nat.leb n 57) || (Nat.leb 65 n && Nat.leb n 90)
  || (Nat.leb 97 n && Nat.leb n 122) || Nat.eqb n 95.

Fixpoint identifier (s : string) : string :=
  match s with
  | String c s' => if is_ident_char c then String c (identifier s') else EmptyString
  | EmptyString => EmptyString
  end.

(** Splits at the first double quote: the text before it and, when there
    is one, the text after it. *)
Fixpoint until_quote (s : string) : string * option string :=
  match s with
  | EmptyString => (EmptyString, None)
  | String c s' =>
      if Ascii.eqb c (ascii_of_nat 34) then (EmptyString, Some s')
      else let '(before, after) := until_quote s' in (String c before, after)
  end.

(** ** Python definitions *)

(** A notebook keeps every line of a code cell in a JSON string; the code
    of a line is what follows the indentation and that opening quote. *)
Definition code_of_line (l : string) : string :=
  let l' := lstrip l in
  lstrip (if String.prefix dq l' then drop 1 l' else l').

Inductive DefKind : Type := PyDef | PyClass.

(** The function or class that a line starts to define, if it does. *)
Definition def_head (l : string) : option (DefKind * string) :=
  let code := code_of_line l in
  if String.prefix "def " code then Some (PyDef, identifier (drop 4 code))
  else if String.prefix "async def " code then Some (PyDef, identifier (drop 10 code))
  else if String.prefix "class " code then Some (PyClass, identifier (drop 6 code))
  else None.

Fixpoint definitions_of (ls : list (nat * string)) : list (DefKind * string) :=
  match ls with
  | [] => []
  | (_, l) :: ls' =>
      match def_head l with
      | Some d => d :: definitions_of ls'
      | None => definitions_of ls'
      end
  end.

Definition definitions (f : SourceFile) : list (DefKind * string) :=
  definitions_of (lines f).

Definition defines (name : string) (f : SourceFile) : bool :=
  existsb (fun d => String.eqb (snd d) name) (definitions f).

Definition mentions (text : string) (f : SourceFile) : bool :=
  existsb (fun e => contains text (snd e)) (lines f).

(** ** Kinds of files *)

Inductive FileKind : Type :=
| DocPage        (* an MDX page or snippet of the website *)
| BlogPost       (* an MDX page under [_blogs/] *)
| Notebook       (* a Jupyter notebook *)
| Workflow       (* a GitHub Actions workflow *)
| PythonModule.  (* a module of Python code *)

Definition kind_of_path (p : string) : option FileKind :=
  if ends_with ".ipynb" p then Some Notebook
  else if ends_with ".mdx" p then
    Some (if contains "/_blogs/" p then BlogPost else DocPage)
  else if String.prefix ".github/workflows/" p && ends_with ".yml" p then Some Workflow
  else if ends_with ".py" p then Some PythonModule
  else None.

Definition has_line_starting (start : string) (f : SourceFile) : bool :=
  existsb (fun e => String.prefix start (snd e)) (lines f).

(** The kind of a file whose name is not known, from how it begins: a
    notebook is a JSON object whose first member is [cells]; a workflow
    names itself and has [on:] and [jobs:]; a page opens with front matter
    or with Markdown text; Python code opens with an import, a shebang or
    copyright comment, a docstring or a definition. *)
Definition sniff (f : SourceFile) : option FileKind :=
  let l1 := line f 1 in
  let l2 := line f 2 in
  if String.eqb l1 "{" && String.prefix (" " ++ dq ++ "cells" ++ dq) l2 then Some Notebook
  else if String.prefix "name:" l1 && has_line_starting "on:" f
          && has_line_starting "jobs:" f then Some Workflow
  else if String.eqb l1 "---" && String.prefix "title:" l2 then Some DocPage
  else if String.prefix "import " l1 || String.prefix "from " l1
          || String.prefix "#!" l1 || String.prefix "# Copyright" l1
          || String.prefix (dq ++ dq ++ dq) l1
          || String.prefix "def " l1 || String.prefix "class " l1 then Some PythonModule
  else if String.prefix "[" l1 && contains "](" l1 then Some DocPage
  else None.

Definition kind_of (f : SourceFile) : option FileKind :=
  if String.prefix "unnamed/" (path f) then sniff f else kind_of_path (path f).

Definition is_documentation (k : option FileKind) : bool :=
  match k with
  | Some DocPage | Some BlogPost | Some Notebook | Some Workflow => true
  | Some PythonModule | None => false
  end.

Definition is_blog (f : SourceFile) : bool :=
  match kind_of f with
  | Some BlogPost => true
  | _ => false
  end.

(** ** JSON as the pages print it *)

(** A member [ "key": "value" ] on a line of its own. *)
Definition json_member (l : string) : option (string * string) :=
  let l' := lstrip l in
  if String.prefix dq l' then
    match until_quote (drop 1 l') with
    | (key, Some rest) =>
        if String.prefix (": " ++ dq) rest then
          match until_quote (drop 3 rest) with
          | (value, Some _) => Some (key, value)
          | (_, None) => None
          end
        else None
    | (_, None) => None
    end
  else None.

(** The objects of an array printed with one member per line. *)
Fixpoint json_objects (ls : list string) (current : option AgentChat.Message)
    : list AgentChat.Message :=
  match ls with
  | [] => []
  | l :: ls' =>
      if String.eqb (lstrip l) "{" then json_objects ls' (Some [])
      else if String.prefix "}" (lstrip l) then
        match current with
        | Some m => m :: json_objects ls' None
        | None => json_objects ls' None
        end
      else
        match json_member l, current with
        | Some member, Some m => json_objects ls' (Some (m ++ [member])%list)
        | _, _ => json_objects ls' current
        end
  end.

(** ** The transcript *)

Definition deploy_website_mintlify_yml : SourceFile :=
  {| path := ".github/workflows/deploy-website-mintlify.yml";
     line_count := 127;
     lines :=
    [
      (1, "name: mintlify docs");
      (2, "")
    ] |}.

Definition agentchat_graph_rag_neo4j_ipynb : SourceFile :=
  {| path := "notebook/agentchat_graph_rag_neo4j.ipynb";
     line_count := 453;
     lines :=
    [
      (1, "{");
      (2, " " ++ dq ++ "cells" ++ dq ++ ": [")
    ] |}.

Definition agentchat_oai_assistant_function_call_ipynb : SourceFile :=
  {| path := "notebook/agentchat_oai_assistant_function_call.ipynb";
     line_count := 221;
     lines :=
    [
      (1, "{");
      (2, " " ++ dq ++ "cells" ++ dq ++ ": [");
      (85, "    " ++ dq ++ "def get_ossinsight(question):\n" ++ dq ++ ",")
    ] |}.

Definition mongodb_query_engine_ipynb : SourceFile :=
  {| path := "notebook/mongodb_query_engine.ipynb";
     line_count := 364;
     lines :=
    [
      (1, "{");
      (2, " " ++ dq ++ "cells" ++ dq ++ ": [")
    ] |}.

Definition blog_2023_10_18_RetrieveChat_mdx : SourceFile :=
  {| path := "website/docs/_blogs/2023-10-18-RetrieveChat/index.mdx";
     line_count := 670;
     lines :=
    [
      (1, "---");
      (2, "title: Retrieval-Augmented Generation (RAG) Applications with AutoGen");
      (208, "To plugin any other dbs, you can also extend class `agentchat.contrib.vectordb.base`,");
      (261, "def retrieve_content(");
      (306, "def initialize_agents(config_list, docs_path=None):");
      (311, "def initiate_chat(config_list, problem, queue, n_results=3):");
      (327, "def chatbot_reply(input_text):");
      (329, "    queue = mp.Queue()");
      (330, "    process = mp.Process(")
    ] |}.

Definition blog_2025_01_10_WebSockets_mdx : SourceFile :=
  {| path := "website/docs/_blogs/2025-01-10-WebSockets/index.mdx";
     line_count := 257;
     lines :=
    [
      (1, "---");
      (2, "title: Streaming input and output using WebSockets");
      (99, "def on_connect(iostream: IOWebsockets) -> None:");
      (120, "    def weather_forecast(city: str) -> str:");
      (142, "The `SimpleHTTPRequestHandler` is used to serve HTML files. A custom handler class overrides the behavior for the root path to serve `chat.html`.");
      (145, "class MyRequestHandler(SimpleHTTPRequestHandler):");
      (146, "    def __init__(self, *args, **kwargs):");
      (149, "    def do_GET(self):");
      (156, "- The `MyRequestHandler` class ensures that the default page served is `chat.html`.");
      (171, "with IOWebsockets.run_server_in_thread(on_connect=on_connect, port=8080) as uri:")
    ] |}.

Definition documentation_mdx : SourceFile :=
  {| path := "website/docs/contributor-guide/documentation.mdx";
     line_count := 131;
     lines :=
    [
      (1, "---");
      (2, "title: Documentation Contribution Guide")
    ] |}.

Definition generate_reply_mdx : SourceFile :=
  {| path := "website/docs/contributor-guide/how-ag2-works/generate-reply.mdx";
     line_count := 425;
     lines :=
    [
      (1, "---");
      (2, "title: Generating a reply");
      (17, "1. [generate_reply](/docs/api-reference/autogen/ConversableAgent#generate-reply) is a ConversableAgent's primary function for getting its reply. It is called on the first turn of [initiate_chat](/docs/api-reference/autogen/ConversableAgent#initiate-chat) and then when messages are received by an agent (API Reference: [receive](/docs/api-reference/autogen/ConversableAgent#receive)). In a GroupChat, it's called by the GroupChatManager in their [run_chat](/docs/api-reference/autogen/GroupChatManager#run-chat) method.");
      (60, "def my_reply_function(");
      (87, "def get_date_time_reply(");
      (107, "agent_calendar.register_reply(");
      (114, "    position=0,");
      (151, "Chat History:");
      (152, "[");
      (153, "  {");
      (154, "    " ++ dq ++ "content" ++ dq ++ ": " ++ dq ++ "Hi Calendar Agent!" ++ dq ++ ",");
      (155, "    " ++ dq ++ "role" ++ dq ++ ": " ++ dq ++ "assistant" ++ dq ++ ",");
      (156, "    " ++ dq ++ "name" ++ dq ++ ": " ++ dq ++ "Bob" ++ dq);
      (157, "  },");
      (158, "  {");
      (159, "    " ++ dq ++ "content" ++ dq ++ ": " ++ dq ++ "The current date/time is 2025-02-25 12:43:47 and the day is Tuesday." ++ dq ++ ",");
      (160, "    " ++ dq ++ "role" ++ dq ++ ": " ++ dq ++ "user" ++ dq ++ ",");
      (161, "    " ++ dq ++ "name" ++ dq ++ ": " ++ dq ++ "Calendar_agent" ++ dq);
      (162, "  },");
      (163, "  {");
      (164, "    " ++ dq ++ "content" ++ dq ++ ": " ++ dq ++ "Actually, February 25, 2025, is a Monday. Is there anything specific you would like to know or do with this date?" ++ dq ++ ",");
      (165, "    " ++ dq ++ "role" ++ dq ++ ": " ++ dq ++ "assistant" ++ dq ++ ",");
      (166, "    " ++ dq ++ "name" ++ dq ++ ": " ++ dq ++ "Bob" ++ dq);
      (167, "  },");
      (168, "  {");
      (169, "    " ++ dq ++ "content" ++ dq ++ ": " ++ dq ++ "The current date/time is 2025-02-25 12:43:49 and the day is Tuesday." ++ dq ++ ",");
      (170, "    " ++ dq ++ "role" ++ dq ++ ": " ++ dq ++ "user" ++ dq ++ ",");
      (171, "    " ++ dq ++ "name" ++ dq ++ ": " ++ dq ++ "Calendar_agent" ++ dq);
      (172, "  }");
      (173, "]");
      (174, "```");
      (263, "def simple_workflow(ui: UI, params: dict[str, Any]) -> str:")
    ] |}.

Definition setup_development_environment_mdx : SourceFile :=
  {| path := "website/docs/contributor-guide/setup-development-environment.mdx";
     line_count := 132;
     lines :=
    [
      (1, "---");
      (2, "title: Setting up Development Environment");
      (10, "  <Tab title=" ++ dq ++ "Using OAI_CONFIG_LIST" ++ dq ++ ">")
    ] |}.

Definition overview_mdx : SourceFile :=
  {| path := "website/docs/user-guide/basic-concepts/overview.mdx";
     line_count := 118;
     lines :=
    [
      (1, "---");
      (2, "title: Overview")
    ] |}.

Definition structured_outputs_mdx : SourceFile :=
  {| path := "website/docs/user-guide/basic-concepts/structured-outputs.mdx";
     line_count := 610;
     lines :=
    [
      (1, "---");
      (2, "title: " ++ dq ++ "Structured Outputs: Ensuring Consistent Responses" ++ dq);
      (48, "class ResponseModel(BaseModel):");
      (87, "class TransactionAuditEntry(BaseModel):");
      (94, "class AuditLogSummary(BaseModel):");
      (139, "def is_termination_msg(x: dict[str, Any]) -> bool:");
      (218, "    def get_previous_transactions() -> list[dict[str, Any]]:");
      (242, "    def check_duplicate_payment(");
      (312, "    class TransactionAuditEntry(BaseModel):");
      (319, "    class AuditLogSummary(BaseModel):");
      (349, "    def is_termination_msg(x: dict[str, Any]) -> bool:")
    ] |}.

Definition mistralai_mdx : SourceFile :=
  {| path := "website/docs/user-guide/models/mistralai.mdx";
     line_count := 737;
     lines :=
    [
      (1, "---");
      (2, "title: Mistral AI");
      (8, "Although AG2 can be used with Mistral AI's API directly by changing the `base_url` to their url, it does not cater for some differences between messaging and, with their API being more strict than OpenAI's, it is recommended to use the Mistral AI Client class as shown in this notebook.");
      (16, "Additionally, this client class provides support for function/tool calling and will track token usage and cost correctly as per Mistral AI's API costs (as of June 2024).");
      (40, "See the sample `OAI_CONFIG_LIST` below showing how the Mistral AI client class is used by specifying the `api_type` as `mistral`.");
      (204, "def is_prime(n):");
      (228, "def is_prime(n):");
      (317, "def make_move() -> Annotated[str, " ++ dq ++ "A move in UCI format" ++ dq ++ "]:")
    ] |}.

Definition GalleryPage_mdx : SourceFile :=
  {| path := "website/snippets/components/GalleryPage.mdx";
     line_count := 169;
     lines :=
    [
      (1, "export const GalleryPage = ({");
      (2, "  galleryItems,")
    ] |}.

Definition humanintheloop_financial_mdx : SourceFile :=
  {| path := "website/snippets/python-examples/humanintheloop_financial.mdx";
     line_count := 63;
     lines :=
    [
      (1, "```python");
      (2, "from autogen import ConversableAgent, LLMConfig");
      (44, "def generate_transaction():")
    ] |}.

Definition code_execution_venv_mdx : SourceFile :=
  {| path := "website/snippets/reference-tools/code-execution-venv.mdx";
     line_count := 57;
     lines :=
    [
      (1, "```python");
      (2, "from autogen import ConversableAgent, LLMConfig, register_function");
      (40, "register_function(")
    ] |}.

Definition part_000 : SourceFile :=
  {| path := "unnamed/part_000";
     line_count := 129;
     lines :=
    [
      (1, "[PydanticAI](https://ai.pydantic.dev/) is a newer framework that brings powerful features for working with LLMs. Although it doesn't yet have a collection of pre-built tools like other frameworks, it offers useful capabilities such as **dependency injection**. This feature allows you to inject a " ++ dq ++ "Context" ++ dq ++ " into tools, which can help pass parameters or manage state without relying on LLMs. Though it's still evolving, you can easily integrate PydanticAI tools into AG2 to boost agent capabilities, particularly for tasks that involve structured data and context-driven logic.");
      (2, "");
      (62, "class Player(BaseModel):");
      (67, "def get_player(ctx: RunContext[Player], additional_info: Optional[str] = None) -> str:  # type: ignore[valid-type]");
      (76, "interop = Interoperability()");
      (81, "ag2_tool = interop.convert_tool(tool=pydantic_ai_tool, type=" ++ dq ++ "pydanticai" ++ dq ++ ", deps=player)");
      (83, "ag2_tool.register_for_execution(user_proxy)");
      (84, "ag2_tool.register_for_llm(chatbot)")
    ] |}.

Definition part_001 : SourceFile :=
  {| path := "unnamed/part_001";
     line_count := 157;
     lines :=
    [
      (1, "---");
      (2, "title: " ++ dq ++ "LLM Configuration: Powering Agent Intelligence" ++ dq);
      (25, "    pip install ag2[openai]");
      (44, "llm_config = LLMConfig(");
      (45, "    api_type=" ++ dq ++ "openai" ++ dq ++ ",                      # The provider");
      (46, "    model=" ++ dq ++ "gpt-4o-mini" ++ dq ++ ",                    # The specific model");
      (47, "    api_key=os.environ[" ++ dq ++ "OPENAI_API_KEY" ++ dq ++ "],   # Authentication");
      (48, ")")
    ] |}.

Definition part_002 : SourceFile :=
  {| path := "unnamed/part_002";
     line_count := 83;
     lines :=
    [
      (1, "---");
      (2, "title: LiteLLM with Azure")
    ] |}.

Definition part_003 : SourceFile :=
  {| path := "unnamed/part_003";
     line_count := 70;
     lines :=
    [
      (1, "---");
      (2, "title: Two-Agent Chat");
      (28, "llm_config=LLMConfig(api_type=" ++ dq ++ "openai" ++ dq ++ ", model=" ++ dq ++ "gpt-4o-mini" ++ dq ++ ", api_key=os.environ[" ++ dq ++ "OPENAI_API_KEY" ++ dq ++ "])");
      (43, "    summary_method=" ++ dq ++ "reflection_with_llm" ++ dq ++ ",");
      (62, "There are some other useful information in the `ChatResult` object, including the conversation history, human input, and token cost.")
    ] |}.

Definition part_004 : SourceFile :=
  {| path := "unnamed/part_004";
     line_count := 308;
     lines :=
    [
      (1, "---");
      (2, "title: Slack Tools");
      (109, "slack_send_tool.register_for_llm(slack_agent)");
      (112, "slack_send_tool.register_for_execution(executor_agent)");
      (120, "def get_weather():")
    ] |}.

Definition part_005 : SourceFile :=
  {| path := "unnamed/part_005";
     line_count := 231;
     lines :=
    [
      (1, "{");
      (2, " " ++ dq ++ "cells" ++ dq ++ ": [")
    ] |}.

Definition part_006 : SourceFile :=
  {| path := "unnamed/part_006";
     line_count := 530;
     lines :=
    [
      (1, "{");
      (2, " " ++ dq ++ "cells" ++ dq ++ ": [");
      (178, "    " ++ dq ++ "def triage_instructions(context_variables):\n" ++ dq ++ ",");
      (258, "    " ++ dq ++ "def valid_to_change_flight() -> str:\n" ++ dq ++ ",");
      (263, "    " ++ dq ++ "def change_flight() -> str:\n" ++ dq ++ ",");
      (268, "    " ++ dq ++ "def initiate_refund() -> str:\n" ++ dq ++ ",");
      (274, "    " ++ dq ++ "def initiate_flight_credits() -> str:\n" ++ dq ++ ",");
      (280, "    " ++ dq ++ "def initiate_baggage_search() -> str:\n" ++ dq ++ ",");
      (287, "    " ++ dq ++ "def case_resolved() -> str:\n" ++ dq ++ ",");
      (294, "    " ++ dq ++ "def escalate_to_agent(reason: str = None) -> str:\n" ++ dq ++ ",");
      (299, "    " ++ dq ++ "def non_flight_enquiry() -> str:\n" ++ dq ++ ",");
      (304, "    " ++ dq ++ "def transfer_to_flight_modification() -> str:\n" ++ dq ++ ",");
      (309, "    " ++ dq ++ "def transfer_to_lost_baggage() -> str:\n" ++ dq ++ ",");
      (314, "    " ++ dq ++ "def transfer_to_flight_cancel() -> str:\n" ++ dq ++ ",");
      (319, "    " ++ dq ++ "def transfer_to_flight_change() -> str:\n" ++ dq ++ ",");
      (329, "    " ++ dq ++ "def transfer_to_triage() -> str:\n" ++ dq ++ ",");
      (398, "    " ++ dq ++ "def state_transition(last_speaker, groupchat):\n" ++ dq ++ ",");
      (424, "    " ++ dq ++ "groupchat = autogen.GroupChat(\n" ++ dq ++ ",");
      (428, "    " ++ dq ++ "    speaker_selection_method=state_transition,\n" ++ dq ++ ",");
      (430, "    " ++ dq ++ "manager = autogen.GroupChatManager(groupchat=groupchat, llm_config=llm_config)" ++ dq);
      (456, "    " ++ dq ++ "def state_transition(last_speaker, groupchat) -> Agent:\n" ++ dq ++ ",")
    ] |}.

Definition part_007 : SourceFile :=
  {| path := "unnamed/part_007";
     line_count := 289;
     lines :=
    [
      (1, "name: Type check");
      (2, "# see: https://help.github.com/en/actions/reference/events-that-trigger-workflows");
      (3, "on: # Trigger the workflow on pull request or merge");
      (21, "jobs:")
    ] |}.

Definition corpus : list SourceFile :=
  [ deploy_website_mintlify_yml;
    agentchat_graph_rag_neo4j_ipynb;
    agentchat_oai_assistant_function_call_ipynb;
    mongodb_query_engine_ipynb;
    blog_2023_10_18_RetrieveChat_mdx;
    blog_2025_01_10_WebSockets_mdx;
    documentation_mdx;
    generate_reply_mdx;
    setup_development_environment_mdx;
    overview_mdx;
    structured_outputs_mdx;
    mistralai_mdx;
    GalleryPage_mdx;
    humanintheloop_financial_mdx;
    code_execution_venv_mdx;
    part_000;
    part_001;
    part_002;
    part_003;
    part_004;
    part_005;
    part_006;
    part_007 ].

(** The chat history that generate-reply.mdx prints, lines 152-173. *)
Definition printed_chat_history : list AgentChat.Message :=
  json_objects (lines_between generate_reply_mdx 152 173) None.

(** The methods and classes of the framework behind the three mechanisms:
    the reply resolution of [ConversableAgent], the speaker selection of a
    group chat, and the registration and execution of tools. *)
Definition reply_resolution_names : list string :=
  ["ConversableAgent"; "generate_reply"; "register_reply"].

Definition speaker_selection_names : list string :=
  ["GroupChat"; "GroupChatManager"; "run_chat"; "speaker_selection_method"].

Definition tool_bridging_names : list string :=
  ["register_function"; "register_for_llm"; "register_for_execution";
   "Interoperability"; "convert_tool"].

Definition framework_names : list string :=
  (reply_resolution_names ++ speaker_selection_names ++ tool_bridging_names)%list.

(** A definition counts as concurrency machinery when its name says so. *)
Definition concurrency_words : list string :=
  ["lock"; "Lock"; "mutex"; "Mutex"; "semaphore"; "Semaphore"; "sched"; "Sched";
   "thread"; "Thread"; "queue"; "Queue"; "pool"; "Pool"; "worker"; "Worker";
   "arbit"; "Arbit"; "concurren"; "Concurren"].

Definition concurrency_name (name : string) : bool :=
  existsb (fun word => contains word name) concurrency_words.

End Corpus.

(** * Python values and strings, as the examples of the pages use them *)

Module Py.
Local Open Scope string_scope.

(** The values that the message dictionaries of the examples hold: [None],
    a string, or a list (tool calls, multi-part content). *)
#[warnings="-register-all"]
Inductive Value : Type :=
| VNone
| VStr (s : string)
| VList (items : list Value).

Fixpoint value_eqb (a b : Value) {struct a} : bool :=
  match a, b with
  | VNone, VNone => true
  | VStr s, VStr t => String.eqb s t
  | VList l, VList m =>
      (fix all_eqb (l : list Value) (m : list Value) {struct l} : bool :=
         match l, m with
         | [], [] => true
         | x :: l', y :: m' => value_eqb x y && all_eqb l' m'
         | _, _ => false
         end) l m
  | _, _ => false
  end.

(** Truth value testing: [None], the empty string and the empty list are false. *)
Definition truthy (v : Value) : bool :=
  match v with
  | VNone => false
  | VStr s => negb (String.eqb s "")
  | VList l => match l with [] => false | _ :: _ => true end
  end.

(** The exceptions that the examples can raise. *)
Inductive Error : Type :=
  KeyError | TypeError | AttributeError | IndexError | ValueError.

Inductive Result (A : Type) : Type :=
| Ok (a : A)
| Raise (e : Error).

Arguments Ok {A} a.
Arguments Raise {A} e.

Definition bind {A B : Type} (r : Result A) (k : A -> Result B) : Result B :=
  match r with
  | Ok a => k a
  | Raise e => Raise e
  end.

(** A dictionary with string keys, in insertion order. *)
Definition Dict : Type := list (string * Value).

Fixpoint lookup (d : Dict) (key : string) : option Value :=
  match d with
  | [] => None
  | (k, v) :: d' => if String.eqb key k then Some v else lookup d' key
  end.

(** [key in d] *)
Definition has_key (d : Dict) (key : string) : bool :=
  match lookup d key with
  | Some _ => true
  | None => false
  end.

(** [d.get(key, default)] *)
Definition dict_get (d : Dict) (key : string) (default : Value) : Value :=
  match lookup d key with
  | Some v => v
  | None => default
  end.

(** [d[key]] *)
Definition subscript (d : Dict) (key : string) : Result Value :=
  match lookup d key with
  | Some v => Ok v
  | None => Raise KeyError
  end.

(** [l[-k]] for [k >= 1]. *)
Definition from_end {A : Type} (l : list A) (k : nat) : Result A :=
  if Nat.leb k (List.length l) then
    match nth_error l (List.length l - k) with
    | Some a => Ok a
    | None => Raise IndexError
    end
  else Raise IndexError.

(** [s.endswith(suffix)] *)
Fixpoint endswith (s suffix : string) : bool :=
  if String.eqb s suffix then true
  else match s with
       | EmptyString => false
       | String _ s' => endswith s' suffix
       end.

(** The ASCII characters that [str.isspace] accepts: tab, line feed,
    vertical tab, form feed, carriage return, the separators 28-31 and the
    space.  Text outside ASCII is not modelled. *)
Definition isspace (c : ascii) : bool :=
  let n := nat_of_ascii c in
  (Nat.leb 9 n && Nat.leb n 13) || (Nat.leb 28 n && Nat.leb n 32).

(** [s.rstrip()] *)
Fixpoint rstrip (s : string) : string :=
  match s with
  | EmptyString => EmptyString
  | String c s' =>
      match rstrip s' with
      | EmptyString => if isspace c then EmptyString else String c EmptyString
      | String _ _ as rest => String c rest
      end
  end.

(** [needle in v] for a string [needle]: substring of a string, element of
    a list, [TypeError] on [None]. *)
Definition str_in (needle : string) (v : Value) : Result bool :=
  match v with
  | VNone => Raise TypeError
  | VStr s => Ok (Corpus.contains needle s)
  | VList l => Ok (existsb (value_eqb (VStr needle)) l)
  end.

(** A method of [str] called on a value: [AttributeError] on anything else. *)
Definition str_method {A : Type} (v : Value) (method : string -> A) : Result A :=
  match v with
  | VStr s => Ok (method s)
  | VNone | VList _ => Raise AttributeError
  end.

End Py.

(** * The termination conditions of the examples *)

Module Termination.
Import Py.
Local Open Scope string_scope.

(** WebSockets blog post, line 115:
    [lambda msg: msg.get("content", "").endswith("TERMINATE")] *)
Definition websockets_is_termination_msg (msg : Dict) : Result bool :=
  str_method (dict_get msg "content" (VStr "")) (fun s => endswith s "TERMINATE").

(** Swarm notebook ([unnamed/part_006]), line 337:
    [lambda x: x.get("content", "") and x.get("content", "").rstrip().endswith("TERMINATE")];
    the result is the truth value of what the lambda returns. *)
Definition swarm_is_termination_msg (x : Dict) : Result bool :=
  if truthy (dict_get x "content" (VStr "")) then
    str_method (dict_get x "content" (VStr "")) (fun s => endswith (rstrip s) "TERMINATE")
  else Ok false.

(** OpenAI assistant notebook, line 182:
    [lambda msg: "TERMINATE" in msg["content"]] *)
Definition assistant_is_termination_msg (msg : Dict) : Result bool :=
  bind (subscript msg "content") (str_in "TERMINATE").

(** Mistral AI page, line 157: [lambda msg: "FINISH" in msg.get("content")] *)
Definition mistral_is_termination_msg (msg : Dict) : Result bool :=
  str_in "FINISH" (dict_get msg "content" VNone).

(** Mistral AI page, line 347: [lambda msg: "tool_calls" not in msg] *)
Definition board_proxy_is_termination_msg (msg : Dict) : Result bool :=
  Ok (negb (has_key msg "tool_calls")).

(** What [json.loads] makes of a text: an object with its keys, or
    another JSON value.  [JSONDecodeError] is a [ValueError]. *)
Inductive Parsed : Type :=
| JObject (keys : list string)
| JOther.

Section StructuredOutput.

(** [json.loads] on a string, from Python's library: [None] when it raises
    [JSONDecodeError]. *)
Variable json_loads : string -> option Parsed.

(** [json.loads(content)]: anything but a string raises [TypeError]. *)
Definition loads (content : Value) : Result Parsed :=
  match content with
  | VStr s =>
      match json_loads s with
      | Some parsed => Ok parsed
      | None => Raise ValueError
      end
  | VNone | VList _ => Raise TypeError
  end.

(** [is_termination_msg], structured-outputs.mdx lines 139-147 (and
    349-357); the bare [except] catches whatever the [try] block raises. *)
Definition is_termination_msg (x : Dict) : Result bool :=
  let content := dict_get x "content" (VStr "") in
  match loads content with
  | Ok data =>
      Ok (match data with
          | JObject keys => existsb (String.eqb "summary_generated_time") keys
          | JOther => false
          end)
  | Raise _ =>
      match content with
      | VNone => Ok false
      | _ => str_in "==== SUMMARY GENERATED ====" content
      end
  end.

End StructuredOutput.

End Termination.

(** * The swarm-style group chat of the notebook [unnamed/part_006] *)

Module Swarm.
Import Py.
Local Open Scope string_scope.

(** The agents of the notebook, lines 205-240 and 334-365. *)
Inductive Agent : Type :=
| user
| triage_agent
| flight_modification
| flight_cancel
| flight_change
| lost_baggage
| tool_execution.

Definition agent_eqb (a b : Agent) : bool :=
  match a, b with
  | user, user | triage_agent, triage_agent
  | flight_modification, flight_modification | flight_cancel, flight_cancel
  | flight_change, flight_change | lost_baggage, lost_baggage
  | tool_execution, tool_execution => true
  | _, _ => false
  end.

(** The [name=] argument each agent is created with. *)
Definition agent_name (a : Agent) : string :=
  match a with
  | user => "User"
  | triage_agent => "Triage_Agent"
  | flight_modification => "Flight_Modification_Agent"
  | flight_cancel => "Flight_Cancel_Traversal"
  | flight_change => "Flight_Change_Traversal"
  | lost_baggage => "Lost_Baggage_Traversal"
  | tool_execution => "tool_execution"
  end.

(** [agents=[...]] of the [GroupChat], lines 424-429. *)
Definition groupchat_agents : list Agent :=
  [user; triage_agent; flight_modification; flight_cancel; flight_change;
   lost_baggage; tool_execution].

(** ** The tools, lines 257-331 *)

Definition valid_to_change_flight : string := "Customer is eligible to change flight".
Definition change_flight : string := "Flight was successfully changed!".
Definition initiate_refund : string := "Refund initiated".
Definition initiate_flight_credits : string := "Successfully initiated flight credits".
Definition initiate_baggage_search : string := "Baggage was found!".
Definition case_resolved : string := "Case resolved. No further questions.".

(** Line 294: [reason: str = None]; an empty reason counts as none. *)
Definition escalate_to_agent (reason : option string) : string :=
  match reason with
  | Some r => if String.eqb r "" then "Escalating to agent" else "Escalating to agent: " ++ r
  | None => "Escalating to agent"
  end.

Definition non_flight_enquiry : string :=
  "Sorry, we can't assist with non-flight related enquiries.".
Definition transfer_to_flight_modification : string := "Flight_Modification_Agent".
Definition transfer_to_lost_baggage : string := "Lost_Baggage_Traversal".
Definition transfer_to_flight_cancel : string := "Flight_Cancel_Traversal".
Definition transfer_to_flight_change : string := "Flight_Change_Traversal".
Definition transfer_to_triage : string := "Triage_Agent".

(** A registered function: one without parameters, or one with the
    optional [reason]. *)
Inductive Tool : Type :=
| NoParameters (result : string)
| OptionalReason (f : option string -> string).

(** Calling a tool with or without a [reason] argument. *)
Definition call (t : Tool) (reason : option (option string)) : Result string :=
  match t, reason with
  | NoParameters result, None => Ok result
  | NoParameters _, Some _ => Raise TypeError
  | OptionalReason f, None => Ok (f None)
  | OptionalReason f, Some r => Ok (f r)
  end.

(** [function_map] of [tool_execution], lines 341-357: first the entries
    under "perform actions", then those under "return an agent's name". *)
Definition action_tools : list (string * Tool) :=
  [ ("escalate_to_agent", OptionalReason escalate_to_agent);
    ("initiate_baggage_search", NoParameters initiate_baggage_search);
    ("initiate_refund", NoParameters initiate_refund);
    ("initiate_flight_credits", NoParameters initiate_flight_credits);
    ("case_resolved", NoParameters case_resolved);
    ("valid_to_change_flight", NoParameters valid_to_change_flight);
    ("change_flight", NoParameters change_flight);
    ("non_flight_enquiry", NoParameters non_flight_enquiry) ].

Definition transfer_tools : list (string * Tool) :=
  [ ("transfer_to_triage", NoParameters transfer_to_triage);
    ("transfer_to_flight_modification", NoParameters transfer_to_flight_modification);
    ("transfer_to_lost_baggage", NoParameters transfer_to_lost_baggage);
    ("transfer_to_flight_cancel", NoParameters transfer_to_flight_cancel);
    ("transfer_to_flight_change", NoParameters transfer_to_flight_change) ].

Definition function_map : list (string * Tool) := (action_tools ++ transfer_tools)%list.

(** The first agent of a list with the given name, [None] when there is
    none or when what is given is not a string. *)
Definition first_agent_named (agents : list Agent) (name : Value) : option Agent :=
  match name with
  | VStr s => find (fun a => String.eqb (agent_name a) s) agents
  | VNone | VList _ => None
  end.

(** The lookup by name over the agents of the notebook's group chat. *)
Definition groupchat_agent_by_name : Value -> option Agent :=
  first_agent_named groupchat_agents.

(** A run of the notebook: the user asks to cancel a flight, the flight
    modification agent calls [transfer_to_flight_cancel], [tool_execution]
    answers with the function's result. *)
Definition cancel_request : list Dict :=
  [ [("content", VStr "How can I help you today?"); ("role", VStr "assistant");
     ("name", VStr "Triage_Agent")];
    [("content", VStr "I want to cancel flight"); ("role", VStr "user");
     ("name", VStr "User")];
    [("content", VNone); ("tool_calls", VList [VStr "transfer_to_flight_cancel"]);
     ("role", VStr "assistant"); ("name", VStr "Flight_Modification_Agent")];
    [("content", VStr transfer_to_flight_cancel); ("role", VStr "tool");
     ("name", VStr "tool_execution")] ].

(** Later in the run: the cancellation agent calls [initiate_flight_credits]. *)
Definition credits_request : list Dict :=
  [ [("content", VStr "I want flight credits"); ("role", VStr "user");
     ("name", VStr "User")];
    [("content", VNone); ("tool_calls", VList [VStr "initiate_flight_credits"]);
     ("role", VStr "assistant"); ("name", VStr "Flight_Cancel_Traversal")];
    [("content", VStr initiate_flight_credits); ("role", VStr "tool");
     ("name", VStr "tool_execution")] ].

Section SpeakerSelection.

(** [groupchat.agent_by_name], a method of the framework's [GroupChat]
    that is not among the files. *)
Variable agent_by_name : Value -> option Agent.

(** [state_transition], lines 398-421.  [None] as a result is Python's
    [None]: no agent of that name. *)
Definition state_transition (last_speaker : Agent) (messages : list Dict)
    : Result (option Agent) :=
  if Nat.leb (List.length messages) 1 then Ok (Some user)
  else
    bind (from_end messages 1) (fun last =>
      if has_key last "tool_calls" then Ok (Some tool_execution)
      else if agent_eqb last_speaker tool_execution then
        let tool_call_msg := dict_get last "content" (VStr "") in
        match agent_by_name tool_call_msg with
        | Some _ => Ok (agent_by_name (dict_get last "content" (VStr "")))
        | None =>
            bind (from_end messages 2) (fun previous =>
              Ok (agent_by_name (dict_get previous "name" (VStr ""))))
        end
      else if existsb (agent_eqb last_speaker)
                [flight_modification; flight_cancel; flight_change; lost_baggage]
      then Ok (Some user)
      else
        bind (from_end messages 2) (fun previous =>
          Ok (agent_by_name (dict_get previous "name" (VStr ""))))).

(** [state_transition] as the notebook defines it again, lines 456-474:
    [triage_agent] joins the agents after which the user speaks. *)
Definition state_transition_rerun (last_speaker : Agent) (messages : list Dict)
    : Result (option Agent) :=
  if Nat.leb (List.length messages) 1 then Ok (Some user)
  else
    bind (from_end messages 1) (fun last =>
      if has_key last "tool_calls" then Ok (Some tool_execution)
      else if agent_eqb last_speaker tool_execution then
        let tool_call_msg := dict_get last "content" (VStr "") in
        match agent_by_name tool_call_msg with
        | Some _ => Ok (agent_by_name (dict_get last "content" (VStr "")))
        | None =>
            bind (from_end messages 2) (fun previous =>
              Ok (agent_by_name (dict_get previous "name" (VStr ""))))
        end
      else if existsb (agent_eqb last_speaker)
                [flight_modification; flight_cancel; flight_change; lost_baggage;
                 triage_agent]
      then Ok (Some user)
      else
        bind (from_end messages 2) (fun previous =>
          Ok (agent_by_name (dict_get previous "name" (VStr ""))))).

End SpeakerSelection.

End Swarm.

(** * The primality test of the Mistral AI page *)

Module Primes.
Local Open Scope Z_scope.

(** The [while] loop of [is_prime], website/docs/user-guide/models/mistralai.mdx
    lines 211-215, from a given [i] on; [fuel] bounds the number of rounds
    and [None] says that it did not suffice. *)
Fixpoint trial_division (fuel : nat) (n i : Z) : option bool :=
  match fuel with
  | O => None
  | S fuel' =>
      if i * i <=? n then
        if (n mod i =? 0) || (n mod (i + 2) =? 0) then Some false
        else trial_division fuel' n (i + 6)
      else Some true
  end.

(** [is_prime], lines 204-216 (and again 228-240). *)
Definition is_prime (n : Z) : option bool :=
  if n <=? 1 then Some false
  else if n <=? 3 then Some true
  else if (n mod 2 =? 0) || (n mod 3 =? 0) then Some false
  else trial_division (Z.to_nat n) n 5.

End Primes.

(** * The duplicate check of the structured-outputs page *)

Module Compliance.
Local Open Scope Z_scope.

(** A point in time, in seconds; the day it falls on; the start of a day.
    [strftime("%Y-%m-%d")] keeps the day and [strptime] gives its start:
    the calendar date is the number of the day here. *)
Definition seconds_per_day : Z := 86400.
Definition day_of (t : Z) : Z := t / seconds_per_day.
Definition start_of_day (d : Z) : Z := d * seconds_per_day.

(** [(a - b).days] of a [timedelta]. *)
Definition days_between (a b : Z) : Z := (a - b) / seconds_per_day.

Record Transaction : Type := {
  vendor : string;
  amount : QArith_base.Q;
  date : Z;
  memo : string }.

(** [get_previous_transactions], structured-outputs.mdx lines 218-239, at
    the time [today] that its [datetime.now()] reads. *)
Definition get_previous_transactions (today : Z) : list Transaction :=
  [ {| vendor := "Staples"; amount := QArith_base.inject_Z 500;
       date := day_of today - 3; memo := "Quarterly supplies" |};
    {| vendor := "Acme Corp"; amount := QArith_base.inject_Z 1500;
       date := day_of today - 10; memo := "NDA services" |};
    {| vendor := "Globex"; amount := QArith_base.inject_Z 12000;
       date := day_of today - 5; memo := "Confidential" |} ].

Record Verdict : Type := {
  is_duplicate : bool;
  reason : string }.

Section Formatting.

(** How an amount and a date appear inside the f-string of the reason. *)
Variable format_amount : QArith_base.Q -> string.
Variable format_date : Z -> string.

(** The [for] loop of [check_duplicate_payment] and the answer after it,
    lines 252-272. *)
Fixpoint first_duplicate (previous_transactions : list Transaction) (today : Z)
    (v : string) (a : QArith_base.Q) (m : string) : Verdict :=
  match previous_transactions with
  | [] => {| is_duplicate := false; reason := "No recent duplicates found" |}
  | tx :: rest =>
      let tx_date := start_of_day (date tx) in
      let date_diff := days_between today tx_date in
      if String.eqb (vendor tx) v && String.eqb (memo tx) m
         && QArith_base.Qeq_bool (amount tx) a && (date_diff <=? 7)
      then {| is_duplicate := true;
              reason := ("Duplicate payment to " ++ v ++ " for $" ++ format_amount a
                         ++ " on " ++ format_date (date tx))%string |}
      else first_duplicate rest today v a m
  end.

(** [check_duplicate_payment], lines 242-272.  It reads the clock twice:
    [listed] is the time at which the previous transactions are listed,
    [today] the time it reads itself afterwards. *)
Definition check_duplicate_payment (listed today : Z)
    (v : string) (a : QArith_base.Q) (m : string) : Verdict :=
  first_duplicate (get_previous_transactions listed) today v a m.

End Formatting.

End Compliance.

(** * The gallery page of the website *)

Module Gallery.
Local Open Scope string_scope.

(** [s.split(",")] *)
Fixpoint split_comma (s : string) : list string :=
  match s with
  | EmptyString => [EmptyString]
  | String c s' =>
      if Ascii.eqb c "," then EmptyString :: split_comma s'
      else match split_comma s' with
           | first :: rest => String c first :: rest
           | [] => [String c EmptyString]
           end
  end.

(** A tag without a comma in it. *)
Definition comma_free (t : string) : Prop :=
  Forall (fun c => Ascii.eqb c "," = false) (list_ascii_of_string t).

(** [tags.join(",")] *)
Definition join_comma (tags : list string) : string := String.concat "," tags.

(** The query of the page's address, as the pairs that [URLSearchParams]
    reads from [window.location.search] and writes back to it. *)
Definition SearchParams : Type := list (string * string).

(** [searchParams.get(name)]: the first value under the name, or [null]. *)
Fixpoint get (params : SearchParams) (name : string) : option string :=
  match params with
  | [] => None
  | (k, v) :: rest => if String.eqb k name then Some v else get rest name
  end.

(** [searchParams.delete(name)]: every pair under the name goes. *)
Definition delete (params : SearchParams) (name : string) : SearchParams :=
  filter (fun kv => negb (String.eqb (fst kv) name)) params.

(** [searchParams.set(name, value)]: the first pair under the name takes
    the value and the others go; without one the pair is added at the end. *)
Fixpoint set (params : SearchParams) (name value : string) : SearchParams :=
  match params with
  | [] => [(name, value)]
  | (k, v) :: rest =>
      if String.eqb k name then (name, value) :: delete rest name
      else (k, v) :: set rest name value
  end.

(** [getTagsFromURL], GalleryPage.mdx lines 7-11; the empty string is
    false like [null]. *)
Definition getTagsFromURL (location_search : SearchParams) : list string :=
  match get location_search "tags" with
  | Some tags => if String.eqb tags "" then [] else split_comma tags
  | None => []
  end.

(** [updateURL], lines 27-37: the query that the address has afterwards. *)
Definition updateURL (tags : list string) (location_search : SearchParams)
    : SearchParams :=
  if Nat.ltb 0 (List.length tags) then set location_search "tags" (join_comma tags)
  else delete location_search "tags".

(** [cardTags.includes(tag)] *)
Definition includes (tags : list string) (tag : string) : bool :=
  existsb (String.eqb tag) tags.

(** The test of [filterItems], line 93: whether a card stays on display. *)
Definition displayed (selectedTags cardTags : list string) : bool :=
  Nat.eqb (List.length selectedTags) 0
  || existsb (fun tag => includes cardTags tag) selectedTags.

(** What the component keeps between events: the selected tags, the query
    of the address, and for every card whether it is on display. *)
Record State : Type := {
  selectedTags : list string;
  location_search : SearchParams;
  display : list bool }.

(** [filterItems], lines 89-99, over the tags of the cards on the page. *)
Definition filterItems (cards : list (list string)) (st : State) : State :=
  {| selectedTags := selectedTags st;
     location_search := location_search st;
     display := map (displayed (selectedTags st)) cards |}.

(** [handleTagChange], lines 83-87. *)
Definition handleTagChange (cards : list (list string)) (tags : list string)
    (st : State) : State :=
  filterItems cards
    {| selectedTags := tags;
       location_search := updateURL tags (location_search st);
       display := display st |}.

(** The [popstate] listener, lines 39-47. *)
Definition on_popstate (cards : list (list string)) (st : State) : State :=
  filterItems cards
    {| selectedTags := getTagsFromURL (location_search st);
       location_search := location_search st;
       display := display st |}.

(** The [onClick] of a tag in [TagsView], lines 107-119. *)
Definition on_tag_click (cards : list (list string)) (tag : string) (st : State)
    : State :=
  if negb (includes (selectedTags st) tag)
  then handleTagChange cards (selectedTags st ++ [tag])%list st
  else st.

(** [[...new Set(tags)]]: the first occurrence of each, in order. *)
Fixpoint unique (seen tags : list string) : list string :=
  match tags with
  | [] => []
  | t :: rest =>
      if includes seen t then unique seen rest
      else t :: unique (t :: seen) rest
  end.

(** [allTags], line 15, over the tags of the gallery items. *)
Definition allTags (galleryItems : list (list string)) : list string :=
  unique [] (flat_map (fun tags => tags) galleryItems).

End Gallery.

(** * Facts about reply resolution and the two-agent chat *)

Module ReplyFacts.
Import AgentChat.

Example insert_at_start : insert_at 0 9 [1; 2] = [9; 1; 2].
Proof. reflexivity. Qed.

Example insert_at_past_the_end : insert_at 5 9 [1; 2] = [1; 2; 9].
Proof. reflexivity. Qed.

Section Dispatch.

Variable World : Type.

Implicit Types (fs : list (ReplyFunc World)) (w : World)
  (messages : list Message) (sender : option string).

(** The reply functions that were called are an initial stretch of the chain. *)
Lemma run_reply_funcs_prefix fs w messages sender :
  exists later,
    map fst (snd (fst (run_reply_funcs fs w messages sender))) ++ later
    = map reply_name fs.
Proof.
  revert w; induction fs as [|f fs IH]; intro w; simpl.
  - exists []. reflexivity.
  - destruct (reply_func f w messages sender) as [w1 [final reply]].
    destruct final; simpl.
    + exists (map reply_name fs). reflexivity.
    + specialize (IH w1).
      destruct (run_reply_funcs fs w1 messages sender) as [[w2 evaluated] result].
      simpl in *. destruct IH as [later IH].
      exists later. now rewrite IH.
Qed.

(** A final reply ends the evaluation: nothing is called after it. *)
Lemma run_reply_funcs_final_is_last fs w messages sender before e after :
  snd (fst (run_reply_funcs fs w messages sender)) = before ++ e :: after ->
  snd e = true -> after = [].
Proof.
  revert w before; induction fs as [|f fs IH]; intros w before; simpl.
  - intros H _. now destruct before.
  - destruct (reply_func f w messages sender) as [w1 [final reply]].
    destruct final; simpl.
    + intros H _. destruct before as [|b before]; simpl in H.
      * now inversion H.
      * inversion H as [[Hb Hrest]]. now destruct before.
    + specialize (IH w1).
      destruct (run_reply_funcs fs w1 messages sender) as [[w2 evaluated] result].
      simpl in *. intros H Hfinal.
      destruct before as [|b before]; simpl in H; inversion H; subst.
      * discriminate Hfinal.
      * now apply (IH before).
Qed.

(** Without a final reply every function of the chain was called, and there
    is no result. *)
Lemma run_reply_funcs_none_final fs w messages sender :
  Forall (fun e => snd e = false) (snd (fst (run_reply_funcs fs w messages sender))) ->
  map fst (snd (fst (run_reply_funcs fs w messages sender))) = map reply_name fs
  /\ snd (run_reply_funcs fs w messages sender) = None.
Proof.
  revert w; induction fs as [|f fs IH]; intro w; simpl.
  - auto.
  - destruct (reply_func f w messages sender) as [w1 [final reply]].
    destruct final; simpl.
    + intro H. inversion H as [|? ? Hfinal]. discriminate Hfinal.
    + specialize (IH w1).
      destruct (run_reply_funcs fs w1 messages sender) as [[w2 evaluated] result].
      simpl in *. intro H. inversion H as [|? ? _ Hrest]; subst.
      destruct (IH Hrest) as [Hnames Hresult]. now rewrite Hnames.
Qed.

(** Once the chain has given a final reply, what stands behind it in the
    chain has no influence on the world, on the reply or on what was called. *)
Lemma run_reply_funcs_rest_irrelevant fs extra w messages sender reply :
  snd (run_reply_funcs fs w messages sender) = Some reply ->
  run_reply_funcs (fs ++ extra) w messages sender
  = run_reply_funcs fs w messages sender.
Proof.
  revert w; induction fs as [|f fs IH]; intro w; simpl.
  - discriminate.
  - destruct (reply_func f w messages sender) as [w1 [final r]].
    destruct final; [reflexivity|].
    specialize (IH w1).
    destruct (run_reply_funcs fs w1 messages sender) as [[w2 evaluated] result].
    simpl in *. intro H. now rewrite (IH H).
Qed.

(** A final first function is the only one called. *)
Lemma run_reply_funcs_first_final f fs w messages sender :
  fst (snd (reply_func f w messages sender)) = true ->
  run_reply_funcs (f :: fs) w messages sender
  = (fst (reply_func f w messages sender), [(reply_name f, true)],
     Some (snd (snd (reply_func f w messages sender)))).
Proof.
  simpl. destruct (reply_func f w messages sender) as [w1 [final reply]].
  simpl. now intros ->.
Qed.

(** [generate_reply] in terms of its two stages. *)
Lemma generate_reply_unfold (a : ConversableAgent World) w messages sender :
  generate_reply a w messages sender
  = let prepared := run_hooks (hook_list a) w messages in
    let run := run_reply_funcs (reply_func_list a) (fst prepared) (snd prepared) sender in
    (fst (fst run), snd (fst run), or_default (default_auto_reply a) (snd run)).
Proof.
  unfold generate_reply.
  destruct (run_hooks (hook_list a) w messages) as [w0 messages0]; simpl.
  now destruct (run_reply_funcs (reply_func_list a) w0 messages0 sender) as [[w1 ev] res].
Qed.

Lemma register_replies_chain (a : ConversableAgent World) fs :
  reply_func_list (register_replies a fs) = rev fs ++ reply_func_list a.
Proof.
  unfold register_replies. revert a; induction fs as [|f fs IH]; intro a; simpl.
  - reflexivity.
  - rewrite IH. simpl. now rewrite <- app_assoc.
Qed.

Lemma evaluated_of_generate_reply (a : ConversableAgent World) w messages sender :
  evaluated_of (generate_reply a w messages sender)
  = snd (fst (run_reply_funcs (reply_func_list a)
                (fst (run_hooks (hook_list a) w messages))
                (snd (run_hooks (hook_list a) w messages)) sender)).
Proof. now rewrite generate_reply_unfold. Qed.

Lemma reply_of_generate_reply (a : ConversableAgent World) w messages sender :
  reply_of (generate_reply a w messages sender)
  = or_default (default_auto_reply a)
      (snd (run_reply_funcs (reply_func_list a)
              (fst (run_hooks (hook_list a) w messages))
              (snd (run_hooks (hook_list a) w messages)) sender)).
Proof. now rewrite generate_reply_unfold. Qed.


(** C8. When none of the reply functions that [generate_reply] evaluates
    gives a final reply, the reply is the agent's [default_auto_reply]; for
    a standard agent that is the empty string. *)
Theorem generate_reply_default_auto_reply
    (a : ConversableAgent World) w messages sender :
  (Forall (fun e => snd e = false) (evaluated_of (generate_reply a w messages sender)) ->
   reply_of (generate_reply a w messages sender) = default_auto_reply a)
  /\ (forall nm (d : DefaultReplies World) hooks llm,
        default_auto_reply (new_agent nm d hooks llm) = TextReply "").
Proof.
  split; [|reflexivity].
  rewrite evaluated_of_generate_reply, reply_of_generate_reply.
  intro H. apply run_reply_funcs_none_final in H. destruct H as [_ H].
  now rewrite H.
Qed.

(** C9. Reply functions registered one after the other without a position
    end up in the chain in reverse order of registration, ahead of the ones
    that were there, and are evaluated in that order: of two, the later one
    comes first.  A reply function registered at position 0 whose reply is
    final is the only one evaluated, and its reply is the agent's reply. *)
Theorem register_reply_order (a : ConversableAgent World) :
  (forall fs, reply_func_list (register_replies a fs) = rev fs ++ reply_func_list a)
  /\ (forall f g,
        reply_func_list (register_reply (register_reply a f None None) g None None)
        = g :: f :: reply_func_list a)
  /\ (forall fs w messages sender,
        exists later,
          map fst (evaluated_of (generate_reply (register_replies a fs) w messages sender))
            ++ later
          = map reply_name (rev fs) ++ map reply_name (reply_func_list a))
  /\ (forall f remove_others w messages sender,
        let prepared := run_hooks (hook_list a) w messages in
        let call := reply_func f (fst prepared) (snd prepared) sender in
        fst (snd call) = true ->
        generate_reply (register_reply a f (Some 0) remove_others) w messages sender
        = (fst call, [(reply_name f, true)], snd (snd call))).
Proof.
  split; [|split; [|split]].
  - apply register_replies_chain.
  - reflexivity.
  - intros fs w messages sender.
    rewrite evaluated_of_generate_reply.
    rewrite <- map_app, <- register_replies_chain.
    apply run_reply_funcs_prefix.
  - intros f remove_others w messages sender prepared call Hfinal.
    rewrite generate_reply_unfold. cbv zeta.
    change (hook_list (register_reply a f (Some 0) remove_others)) with (hook_list a).
    fold prepared.
    change (reply_func_list (register_reply a f (Some 0) remove_others))
      with (f :: (if or_default false remove_others then [] else reply_func_list a)).
    rewrite run_reply_funcs_first_final by exact Hfinal.
    reflexivity.
Qed.


End Dispatch.

(** ** The theorems at the agents of generate-reply.mdx *)

Import CalendarExample.


Lemma generate_reply_default_auto_reply_witness :
  Forall (fun e => snd e = false)
    (evaluated_of (generate_reply plain_calendar run_of_the_page [] None))
  /\ reply_of (generate_reply plain_calendar run_of_the_page [] None) = TextReply "".
Proof.
  assert (H : Forall (fun e : Evaluation => snd e = false)
                (evaluated_of (generate_reply plain_calendar run_of_the_page [] None)))
    by (vm_compute; repeat constructor).
  split; [exact H|].
  exact (proj1 (generate_reply_default_auto_reply World plain_calendar
                  run_of_the_page [] None) H).
Defined.

Lemma register_reply_order_witness :
  fst (snd (get_date_time_reply run_of_the_page [] (Some "Bob"))) = true
  /\ generate_reply agent_calendar run_of_the_page [] (Some "Bob")
     = ({| clock := [("2025-02-25 12:43:49", "Tuesday")];
           llm_answers := llm_answers run_of_the_page |},
        [("get_date_time_reply", true)],
        DictReply
          [("content",
            "The current date/time is 2025-02-25 12:43:47 and the day is Tuesday.")]).
Proof.
  split; [reflexivity|].
  apply (proj2 (proj2 (proj2 (register_reply_order World plain_calendar)))
           {| reply_name := "get_date_time_reply"; reply_func := get_date_time_reply |}
           None run_of_the_page [] (Some "Bob")).
  reflexivity.
Defined.


End ReplyFacts.

(** * Facts about the files *)

Module CorpusFacts.
Import Corpus.
Local Open Scope string_scope.

(** Goes through the files, names and lines one by one and computes each check. *)
Ltac check_each :=
  repeat first
    [ apply Forall_nil
    | apply Forall_cons
    | split
    | vm_compute; reflexivity ].

Ltac in_corpus := unfold corpus; simpl; tauto.

Example def_head_in_notebook :
  def_head (line part_006 398) = Some (PyDef, "state_transition").
Proof. reflexivity. Qed.

Example def_head_of_class :
  def_head (line blog_2025_01_10_WebSockets_mdx 145) = Some (PyClass, "MyRequestHandler").
Proof. reflexivity. Qed.

Example def_head_of_prose :
  def_head (line blog_2023_10_18_RetrieveChat_mdx 208) = None.
Proof. reflexivity. Qed.

Example json_member_of_line :
  json_member (line generate_reply_mdx 155) = Some ("role", "assistant").
Proof. reflexivity. Qed.

Example kind_of_python_path :
  kind_of_path "autogen/agentchat/conversable_agent.py" = Some PythonModule.
Proof. reflexivity. Qed.

(** Every function and class that the files define, in the order of [corpus]. *)
Lemma definitions_of_corpus :
  map snd (flat_map definitions corpus)
  = [ "get_ossinsight"; "retrieve_content"; "initialize_agents"; "initiate_chat";
      "chatbot_reply"; "on_connect"; "weather_forecast"; "MyRequestHandler";
      "__init__"; "do_GET"; "my_reply_function"; "get_date_time_reply";
      "simple_workflow"; "ResponseModel"; "TransactionAuditEntry"; "AuditLogSummary";
      "is_termination_msg"; "get_previous_transactions"; "check_duplicate_payment";
      "TransactionAuditEntry"; "AuditLogSummary"; "is_termination_msg"; "is_prime";
      "is_prime"; "make_move"; "generate_transaction"; "Player"; "get_player";
      "get_weather"; "triage_instructions"; "valid_to_change_flight"; "change_flight";
      "initiate_refund"; "initiate_flight_credits"; "initiate_baggage_search";
      "case_resolved"; "escalate_to_agent"; "non_flight_enquiry";
      "transfer_to_flight_modification"; "transfer_to_lost_baggage";
      "transfer_to_flight_cancel"; "transfer_to_flight_change"; "transfer_to_triage";
      "state_transition"; "state_transition" ].
Proof. vm_compute. reflexivity. Qed.

(** The chat that the model runs for the calendar example has the history
    that the page prints. *)
Lemma model_reproduces_printed_chat :
  AgentChat.chat_history CalendarExample.chat_result = printed_chat_history.
Proof. vm_compute. reflexivity. Qed.




(** C6. The files show an [LLMConfig] being constructed (LLM Configuration
    page, lines 44-48), name the [ChatResult] object with its conversation
    history, human input and token cost (Two-Agent Chat page, line 62), and
    print a chat history whose four messages each have exactly the keys
    [content], [role] and [name] (generate-reply.mdx, lines 152-173). *)
Theorem documented_data_shapes :
  (In part_001 corpus
   /\ contains "llm_config = LLMConfig(" (line part_001 44) = true
   /\ contains "api_type=" (line part_001 45) = true
   /\ contains "model=" (line part_001 46) = true
   /\ contains "api_key=" (line part_001 47) = true
   /\ line part_001 48 = ")")
  /\ (In part_003 corpus
      /\ contains "`ChatResult` object" (line part_003 62) = true
      /\ contains "conversation history, human input, and token cost"
           (line part_003 62) = true)
  /\ (In generate_reply_mdx corpus
      /\ length printed_chat_history = 4
      /\ Forall (fun m => AgentChat.keys m = ["content"; "role"; "name"])
           printed_chat_history).
Proof.
  split; [|split].
  - split; [in_corpus|]. repeat split; vm_compute; reflexivity.
  - split; [in_corpus|]. repeat split; vm_compute; reflexivity.
  - split; [in_corpus|]. split; [vm_compute; reflexivity|].
    apply Forall_forall. intros m Hm. vm_compute in Hm.
    repeat (destruct Hm as [<-|Hm]; [reflexivity|]). destruct Hm.
Qed.

(** C7. The files contain the command [pip install ag2[...]] (LLM
    Configuration page, line 25), the environment variables
    [OPENAI_API_KEY] (same page, line 47) and [OAI_CONFIG_LIST] (development
    setup page, line 10), and a CI workflow in YAML (the type-check workflow
    with its [name:], [on:] and [jobs:]). *)
Theorem documented_install_env_ci :
  (In part_001 corpus
   /\ contains "pip install ag2[" (line part_001 25) = true
   /\ contains "OPENAI_API_KEY" (line part_001 47) = true)
  /\ (In setup_development_environment_mdx corpus
      /\ contains "OAI_CONFIG_LIST" (line setup_development_environment_mdx 10) = true)
  /\ (In part_007 corpus
      /\ kind_of part_007 = Some Workflow
      /\ line part_007 1 = "name: Type check"
      /\ String.prefix "on:" (line part_007 3) = true
      /\ line part_007 21 = "jobs:").
Proof.
  split; [|split]; (split; [in_corpus|]); repeat split; vm_compute; reflexivity.
Qed.

End CorpusFacts.

(** * Facts about the termination conditions *)

Module TerminationFacts.
Import Py Termination.
Local Open Scope string_scope.

Lemma prefix_refl (s : string) : String.prefix s s = true.
Proof.
  induction s as [|c s IH]; simpl; [reflexivity|].
  destruct (ascii_dec c c) as [_|Hc]; [exact IH | now elim Hc].
Qed.

Lemma prefix_empty (s : string) : String.prefix "" s = true.
Proof. now destruct s. Qed.

Lemma prefix_app (p s t : string) :
  String.prefix p s = true -> String.prefix p (s ++ t) = true.
Proof.
  revert s; induction p as [|c p IH]; intros s H; [apply prefix_empty|].
  destruct s as [|d s]; simpl in *; [discriminate|].
  destruct (ascii_dec c d); [now apply IH | discriminate].
Qed.

Lemma contains_cons (needle : string) (c : ascii) (s : string) :
  Corpus.contains needle (String c s)
  = if String.prefix needle (String c s) then true else Corpus.contains needle s.
Proof. reflexivity. Qed.

Lemma endswith_cons (c : ascii) (s suffix : string) :
  endswith (String c s) suffix
  = if String.eqb (String c s) suffix then true else endswith s suffix.
Proof. reflexivity. Qed.

Lemma contains_app (needle s t : string) :
  Corpus.contains needle s = true -> Corpus.contains needle (s ++ t) = true.
Proof.
  induction s as [|c s IH].
  - destruct needle; [|discriminate].
    intros _. destruct t; reflexivity.
  - change (String c s ++ t) with (String c (s ++ t)).
    rewrite !contains_cons.
    destruct (String.prefix needle (String c s)) eqn:Hp.
    + intros _. change (String c (s ++ t)) with (String c s ++ t).
      now rewrite (prefix_app _ _ t Hp).
    + intro H. rewrite (IH H).
      now destruct (String.prefix needle (String c (s ++ t))).
Qed.

Lemma endswith_contains (s suffix : string) :
  endswith s suffix = true -> Corpus.contains suffix s = true.
Proof.
  induction s as [|c s IH].
  - destruct suffix; [intros _; reflexivity | discriminate].
  - rewrite endswith_cons, contains_cons.
    destruct (String.eqb (String c s) suffix) eqn:He.
    + apply String.eqb_eq in He. subst suffix. intros _.
      now rewrite prefix_refl.
    + intro H. rewrite (IH H).
      now destruct (String.prefix suffix (String c s)).
Qed.

Lemma endswith_nonempty (s suffix : string) :
  endswith s suffix = true -> suffix <> "" -> s <> "".
Proof.
  intros H Hs ->. destruct suffix; [now elim Hs | discriminate H].
Qed.

(** What [rstrip] leaves off is whitespace, and what it keeps ends in none. *)
Lemma rstrip_spec (s : string) :
  exists w, s = rstrip s ++ w
            /\ Forall (fun c => isspace c = true) (list_ascii_of_string w).
Proof.
  induction s as [|c s [w [Hs Hw]]]; simpl.
  - exists "". split; [reflexivity | constructor].
  - destruct (rstrip s) as [|d r] eqn:Hr.
    + simpl in Hs. subst w. destruct (isspace c) eqn:Hc.
      * exists (String c s). split; [reflexivity|]. simpl. now constructor.
      * exists s. split; [reflexivity | exact Hw].
    + exists w. split; [|exact Hw]. simpl. now rewrite Hs at 1.
Qed.

(** A string that ends with a suffix which [rstrip] leaves alone is left alone. *)
Lemma rstrip_endswith (s suffix : string) :
  suffix <> "" -> rstrip suffix = suffix ->
  endswith s suffix = true -> rstrip s = s.
Proof.
  intros Hne Hsuf. induction s as [|c s IH]; [reflexivity|].
  rewrite endswith_cons.
  destruct (String.eqb (String c s) suffix) eqn:He.
  - apply String.eqb_eq in He. intros _. rewrite <- He in Hsuf. exact Hsuf.
  - intro H. simpl. rewrite (IH H).
    pose proof (endswith_nonempty _ _ H Hne) as Hs.
    destruct s; [now elim Hs | reflexivity].
Qed.

Lemma rstrip_whitespace (w : string) :
  Forall (fun c => isspace c = true) (list_ascii_of_string w) -> rstrip w = "".
Proof.
  induction w as [|c w IH]; simpl; [reflexivity|].
  intro H. inversion H as [|? ? Hc Hw]; subst.
  now rewrite (IH Hw), Hc.
Qed.

(** Whitespace at the end does not change what [rstrip] gives. *)
Lemma rstrip_app_whitespace (s w : string) :
  Forall (fun c => isspace c = true) (list_ascii_of_string w) ->
  rstrip (s ++ w) = rstrip s.
Proof.
  intro Hw. induction s as [|c s IH]; simpl.
  - now apply rstrip_whitespace.
  - now rewrite IH.
Qed.

Lemma length_append (s t : string) :
  String.length (s ++ t) = String.length s + String.length t.
Proof. induction s as [|c s IH]; simpl; [reflexivity | now rewrite IH]. Qed.

Lemma rstrip_length (s : string) : String.length (rstrip s) <= String.length s.
Proof.
  destruct (rstrip_spec s) as [w [Hs _]].
  rewrite Hs at 2. rewrite length_append. lia.
Qed.

Lemma terminate_is_stripped : rstrip "TERMINATE" = "TERMINATE".
Proof. reflexivity. Qed.

Lemma terminate_not_empty : "TERMINATE" <> "".
Proof. discriminate. Qed.

(** X1. The three conditions on [TERMINATE] are nested: a message that the
    WebSockets example takes as the end of the chat is one for the swarm
    notebook, and a message that the swarm notebook takes as the end is one
    for the assistant notebook. *)
Theorem termination_conditions_nest (msg : Dict) :
  (websockets_is_termination_msg msg = Ok true ->
   swarm_is_termination_msg msg = Ok true)
  /\ (swarm_is_termination_msg msg = Ok true ->
      assistant_is_termination_msg msg = Ok true).
Proof.
  unfold websockets_is_termination_msg, swarm_is_termination_msg,
    assistant_is_termination_msg, subscript, dict_get.
  destruct (lookup msg "content") as [[|s|l]|]; simpl; split; try discriminate.
  - intro H. injection H as H.
    pose proof (endswith_nonempty _ _ H terminate_not_empty) as Hs.
    apply String.eqb_neq in Hs. rewrite Hs. simpl.
    now rewrite (rstrip_endswith _ _ terminate_not_empty terminate_is_stripped H), H.
  - destruct (String.eqb s ""); simpl; [discriminate|].
    intro H. injection H as H. apply endswith_contains in H.
    destruct (rstrip_spec s) as [w [Hs _]].
    rewrite Hs. now rewrite (contains_app _ _ w H).
  - destruct l; simpl; discriminate.
Qed.





Lemma termination_conditions_nest_witness :
  websockets_is_termination_msg [("content", VStr "All done. TERMINATE")] = Ok true
  /\ swarm_is_termination_msg [("content", VStr "All done. TERMINATE")] = Ok true
  /\ assistant_is_termination_msg [("content", VStr "All done. TERMINATE")] = Ok true.
Proof.
  assert (H : websockets_is_termination_msg [("content", VStr "All done. TERMINATE")]
              = Ok true) by reflexivity.
  split; [exact H|].
  pose proof (termination_conditions_nest [("content", VStr "All done. TERMINATE")])
    as [H1 H2].
  split; [exact (H1 H) | exact (H2 (H1 H))].
Defined.



End TerminationFacts.

(** * Facts about the speaker selection of the swarm notebook *)

Module SwarmFacts.
Import Py Swarm.

Lemma from_end_1 {A : Type} (history : list A) (previous last : A) :
  from_end (history ++ [previous; last]) 1 = Ok last.
Proof.
  unfold from_end. rewrite length_app.
  change (List.length [previous; last]) with 2.
  destruct (Nat.leb 1 (List.length history + 2)) eqn:H;
    [|apply Nat.leb_gt in H; lia].
  rewrite nth_error_app2 by lia.
  replace (List.length history + 2 - 1 - List.length history) with 1 by lia.
  reflexivity.
Qed.

Lemma from_end_2 {A : Type} (history : list A) (previous last : A) :
  from_end (history ++ [previous; last]) 2 = Ok previous.
Proof.
  unfold from_end. rewrite length_app.
  change (List.length [previous; last]) with 2.
  destruct (Nat.leb 2 (List.length history + 2)) eqn:H;
    [|apply Nat.leb_gt in H; lia].
  rewrite nth_error_app2 by lia.
  replace (List.length history + 2 - 2 - List.length history) with 0 by lia.
  reflexivity.
Qed.

Lemma more_than_one {A : Type} (history : list A) (previous last : A) :
  Nat.leb (List.length (history ++ [previous; last])) 1 = false.
Proof. apply Nat.leb_gt. rewrite length_app. simpl. lia. Qed.

(** A list of two or more ends in two elements. *)
Lemma two_last {A : Type} (l : list A) :
  Nat.leb (List.length l) 1 = false ->
  exists history previous last, l = history ++ [previous; last].
Proof.
  intro H. apply Nat.leb_gt in H.
  destruct (exists_last (l := l)) as [l1 [last ->]].
  { intros ->. simpl in H. lia. }
  rewrite length_app in H. simpl in H.
  destruct (exists_last (l := l1)) as [history [previous ->]].
  { intros ->. simpl in H. lia. }
  exists history, previous, last. now rewrite <- app_assoc.
Qed.

(** Finds the agent of the group chat that has the name asked for. *)
Ltac agent_named :=
  first
    [ exists user; split; [simpl; tauto | reflexivity]
    | exists triage_agent; split; [simpl; tauto | reflexivity]
    | exists flight_modification; split; [simpl; tauto | reflexivity]
    | exists flight_cancel; split; [simpl; tauto | reflexivity]
    | exists flight_change; split; [simpl; tauto | reflexivity]
    | exists lost_baggage; split; [simpl; tauto | reflexivity]
    | exists tool_execution; split; [simpl; tauto | reflexivity] ].

Section SpeakerSelection.

Variable agent_by_name : Value -> option Agent.

(** The lookup finds every agent of the group chat under its name ... *)
Hypothesis finds_agents :
  forall a, In a groupchat_agents -> agent_by_name (VStr (agent_name a)) = Some a.

(** ... and finds nothing under anything else. *)
Hypothesis finds_by_name :
  forall v a, agent_by_name v = Some a -> v = VStr (agent_name a).

Lemma state_transition_at (last_speaker : Agent) history previous last :
  state_transition agent_by_name last_speaker (history ++ [previous; last])
  = if has_key last "tool_calls" then Ok (Some tool_execution)
    else if agent_eqb last_speaker tool_execution then
      match agent_by_name (dict_get last "content" (VStr "")) with
      | Some a => Ok (Some a)
      | None => Ok (agent_by_name (dict_get previous "name" (VStr "")))
      end
    else if existsb (agent_eqb last_speaker)
              [flight_modification; flight_cancel; flight_change; lost_baggage]
    then Ok (Some user)
    else Ok (agent_by_name (dict_get previous "name" (VStr ""))).
Proof.
  unfold state_transition.
  rewrite more_than_one, from_end_1, from_end_2. simpl bind.
  destruct (has_key last "tool_calls"); [reflexivity|].
  destruct (agent_eqb last_speaker tool_execution); [|reflexivity].
  now destruct (agent_by_name (dict_get last "content" (VStr ""))).
Qed.

Lemma state_transition_rerun_at (last_speaker : Agent) history previous last :
  state_transition_rerun agent_by_name last_speaker (history ++ [previous; last])
  = if has_key last "tool_calls" then Ok (Some tool_execution)
    else if agent_eqb last_speaker tool_execution then
      match agent_by_name (dict_get last "content" (VStr "")) with
      | Some a => Ok (Some a)
      | None => Ok (agent_by_name (dict_get previous "name" (VStr "")))
      end
    else if existsb (agent_eqb last_speaker)
              [flight_modification; flight_cancel; flight_change; lost_baggage;
               triage_agent]
    then Ok (Some user)
    else Ok (agent_by_name (dict_get previous "name" (VStr ""))).
Proof.
  unfold state_transition_rerun.
  rewrite more_than_one, from_end_1, from_end_2. simpl bind.
  destruct (has_key last "tool_calls"); [reflexivity|].
  destruct (agent_eqb last_speaker tool_execution); [|reflexivity].
  now destruct (agent_by_name (dict_get last "content" (VStr ""))).
Qed.

(** X4. [state_transition] never raises: although it reads [messages[-1]]
    and [messages[-2]], it does so only when there are two messages or
    more.  The same holds for the version the notebook runs. *)
Theorem state_transition_never_raises (last_speaker : Agent) (messages : list Dict) :
  (exists next, state_transition agent_by_name last_speaker messages = Ok next)
  /\ (exists next, state_transition_rerun agent_by_name last_speaker messages = Ok next).
Proof.
  destruct (Nat.leb (List.length messages) 1) eqn:Hlen.
  - unfold state_transition, state_transition_rerun. rewrite Hlen.
    split; now exists (Some user).
  - destruct (two_last messages Hlen) as [history [previous [last ->]]].
    rewrite state_transition_at, state_transition_rerun_at.
    destruct (has_key last "tool_calls"); [split; eexists; reflexivity|].
    destruct (agent_eqb last_speaker tool_execution).
    + destruct (agent_by_name (dict_get last "content" (VStr "")));
        split; eexists; reflexivity.
    + split.
      * destruct (existsb _ _); eexists; reflexivity.
      * destruct (existsb _ _); eexists; reflexivity.
Qed.

(** X5. Every function under "return an agent's name" in [function_map]
    returns the name of an agent of the group chat: once [tool_execution]
    has run it, the agent of that name speaks next. *)
Theorem transfer_reaches_named_agent
    (name : string) (tool : Tool) (result : string)
    (history : list Dict) (previous last : Dict) :
  In (name, tool) transfer_tools ->
  call tool None = Ok result ->
  has_key last "tool_calls" = false ->
  lookup last "content" = Some (VStr result) ->
  exists a,
    In a groupchat_agents /\ agent_name a = result
    /\ state_transition agent_by_name tool_execution (history ++ [previous; last])
       = Ok (Some a)
    /\ state_transition_rerun agent_by_name tool_execution (history ++ [previous; last])
       = Ok (Some a).
Proof.
  intros Hin Hcall Hcalls Hcontent.
  assert (Hagent : exists a, In a groupchat_agents /\ agent_name a = result).
  { simpl in Hin.
    repeat (destruct Hin as [Hin|Hin];
            [injection Hin as <- <-; injection Hcall as <-; agent_named|]).
    destruct Hin. }
  destruct Hagent as [a [Ha Hname]]. exists a.
  rewrite state_transition_at, state_transition_rerun_at, Hcalls.
  unfold dict_get. rewrite Hcontent. simpl agent_eqb. cbv iota.
  rewrite <- Hname, (finds_agents a Ha). now repeat split.
Qed.

(** No agent is named like the answer of a function under "perform actions". *)
Lemma action_result_names_no_agent
    (name : string) (tool : Tool) (argument : option (option string))
    (result : string) (a : Agent) :
  In (name, tool) action_tools -> call tool argument = Ok result ->
  agent_name a <> result.
Proof.
  intros Hin Hcall Hname. simpl in Hin.
  destruct Hin as [Hin|Hin].
  - injection Hin as <- <-.
    assert (Hesc : exists r, result = escalate_to_agent r).
    { destruct argument as [r|]; injection Hcall as <-;
        [now exists r | now exists None]. }
    destruct Hesc as [r ->].
    destruct r as [r|]; simpl in Hname;
      [destruct (String.eqb r "")|]; destruct a; discriminate Hname.
  - repeat (destruct Hin as [Hin|Hin];
            [injection Hin as <- <-;
             destruct argument; [discriminate Hcall|];
             injection Hcall as <-; destruct a; discriminate Hname|]).
    destruct Hin.
Qed.

(** X6. After [tool_execution] has run a function under "perform actions",
    whatever its argument, the agent named in the message before speaks
    next: the agent that asked for the function. *)
Theorem action_returns_to_caller
    (name : string) (tool : Tool) (argument : option (option string))
    (result : string) (history : list Dict) (previous last : Dict) :
  In (name, tool) action_tools ->
  call tool argument = Ok result ->
  has_key last "tool_calls" = false ->
  lookup last "content" = Some (VStr result) ->
  state_transition agent_by_name tool_execution (history ++ [previous; last])
  = Ok (agent_by_name (dict_get previous "name" (VStr "")))
  /\ (forall caller, In caller groupchat_agents ->
        lookup previous "name" = Some (VStr (agent_name caller)) ->
        state_transition agent_by_name tool_execution (history ++ [previous; last])
        = Ok (Some caller)).
Proof.
  intros Hin Hcall Hcalls Hcontent.
  assert (Hnone : agent_by_name (VStr result) = None).
  { destruct (agent_by_name (VStr result)) as [a|] eqn:Ha; [|reflexivity].
    apply finds_by_name in Ha. injection Ha as Ha.
    now elim (action_result_names_no_agent name tool argument result a Hin Hcall). }
  assert (Hnext :
            state_transition agent_by_name tool_execution (history ++ [previous; last])
            = Ok (agent_by_name (dict_get previous "name" (VStr "")))).
  { rewrite state_transition_at, Hcalls.
    unfold dict_get at 1. rewrite Hcontent. simpl agent_eqb. cbv iota.
    now rewrite Hnone. }
  split; [exact Hnext|].
  intros caller Hcaller Hprev. rewrite Hnext. unfold dict_get. rewrite Hprev.
  now rewrite (finds_agents caller Hcaller).
Qed.

(** X7. The two versions of [state_transition] in the notebook agree
    except after [triage_agent]: when it has spoken without calling a tool,
    the first version gives the floor to the agent named in the message
    before, the second to the user. *)
Theorem state_transition_versions (last_speaker : Agent) (messages : list Dict) :
  (last_speaker <> triage_agent ->
   state_transition agent_by_name last_speaker messages
   = state_transition_rerun agent_by_name last_speaker messages)
  /\ (forall history previous last,
        has_key last "tool_calls" = false ->
        state_transition agent_by_name triage_agent (history ++ [previous; last])
        = Ok (agent_by_name (dict_get previous "name" (VStr "")))
        /\ state_transition_rerun agent_by_name triage_agent
             (history ++ [previous; last])
           = Ok (Some user)).
Proof.
  split.
  - intro Hspeaker.
    destruct (Nat.leb (List.length messages) 1) eqn:Hlen.
    + unfold state_transition, state_transition_rerun. now rewrite Hlen.
    + destruct (two_last messages Hlen) as [history [previous [last ->]]].
      rewrite state_transition_at, state_transition_rerun_at.
      destruct last_speaker; try reflexivity. now elim Hspeaker.
  - intros history previous last Hcalls.
    rewrite state_transition_at, state_transition_rerun_at, Hcalls.
    split; reflexivity.
Qed.

(** X8. In the version the notebook runs, an agent with an LLM never
    hands over to another one directly: after any speaker other than the
    user and [tool_execution] the next speaker is [tool_execution] when the
    message calls a tool, and the user otherwise. *)
Theorem llm_agents_hand_over_to_user_or_tools
    (last_speaker : Agent) (history : list Dict) (previous last : Dict) :
  last_speaker <> user -> last_speaker <> tool_execution ->
  state_transition_rerun agent_by_name last_speaker (history ++ [previous; last])
  = Ok (Some (if has_key last "tool_calls" then tool_execution else user)).
Proof.
  intros Huser Htools. rewrite state_transition_rerun_at.
  destruct (has_key last "tool_calls"); [reflexivity|].
  destruct last_speaker; try reflexivity; [now elim Huser | now elim Htools].
Qed.

End SpeakerSelection.

(** ** The theorems at the group chat of the notebook *)

Lemma agent_by_name_finds_agents (a : Agent) :
  In a groupchat_agents -> groupchat_agent_by_name (VStr (agent_name a)) = Some a.
Proof. intros _. now destruct a. Qed.

Lemma agent_by_name_finds_by_name (v : Value) (a : Agent) :
  groupchat_agent_by_name v = Some a -> v = VStr (agent_name a).
Proof.
  destruct v as [|s|l]; try discriminate.
  unfold groupchat_agent_by_name, first_agent_named.
  intro H. apply find_some in H. destruct H as [_ H].
  apply String.eqb_eq in H. now subst.
Qed.

Lemma transfer_reaches_named_agent_witness :
  exists a,
    In a groupchat_agents /\ agent_name a = "Flight_Cancel_Traversal"
    /\ state_transition groupchat_agent_by_name tool_execution cancel_request
       = Ok (Some a)
    /\ state_transition_rerun groupchat_agent_by_name tool_execution cancel_request
       = Ok (Some a).
Proof.
  apply (transfer_reaches_named_agent groupchat_agent_by_name
           agent_by_name_finds_agents
           "transfer_to_flight_cancel" (NoParameters transfer_to_flight_cancel)
           "Flight_Cancel_Traversal" (firstn 2 cancel_request)
           (nth 2 cancel_request []) (nth 3 cancel_request [])).
  - simpl. tauto.
  - reflexivity.
  - reflexivity.
  - reflexivity.
Defined.

Lemma action_returns_to_caller_witness :
  state_transition groupchat_agent_by_name tool_execution credits_request
  = Ok (Some flight_cancel).
Proof.
  apply (proj2 (action_returns_to_caller groupchat_agent_by_name
                  agent_by_name_finds_agents agent_by_name_finds_by_name
                  "initiate_flight_credits" (NoParameters initiate_flight_credits)
                  None "Successfully initiated flight credits"
                  (firstn 1 credits_request)
                  (nth 1 credits_request []) (nth 2 credits_request [])
                  ltac:(simpl; tauto) eq_refl eq_refl eq_refl)
           flight_cancel).
  - simpl. tauto.
  - reflexivity.
Defined.

Lemma state_transition_versions_witness :
  state_transition groupchat_agent_by_name flight_cancel credits_request
  = state_transition_rerun groupchat_agent_by_name flight_cancel credits_request
  /\ state_transition groupchat_agent_by_name triage_agent (firstn 2 cancel_request)
     = Ok (Some triage_agent)
  /\ state_transition_rerun groupchat_agent_by_name triage_agent (firstn 2 cancel_request)
     = Ok (Some user).
Proof.
  split.
  - apply (proj1 (state_transition_versions groupchat_agent_by_name flight_cancel
                    credits_request)).
    discriminate.
  - apply (proj2 (state_transition_versions groupchat_agent_by_name triage_agent
                    (firstn 2 cancel_request))
             [] (nth 0 cancel_request []) (nth 1 cancel_request [])).
    reflexivity.
Defined.

Lemma llm_agents_hand_over_to_user_or_tools_witness :
  state_transition_rerun groupchat_agent_by_name flight_modification
    (firstn 3 cancel_request)
  = Ok (Some tool_execution).
Proof.
  apply (llm_agents_hand_over_to_user_or_tools groupchat_agent_by_name
           flight_modification (firstn 1 cancel_request)
           (nth 1 cancel_request []) (nth 2 cancel_request [])); discriminate.
Defined.

End SwarmFacts.

(** * Facts about the primality test *)

Module PrimeFacts.
Import Primes.
Local Open Scope Z_scope.

(** A number without a divisor below [i], where [n < i * i], is prime. *)
Lemma no_divisor_below_root_prime (n i : Z) :
  1 < n -> 0 < i -> n < i * i ->
  (forall d, 1 < d < i -> ~ (d | n)) -> Z.prime n.
Proof.
  intros Hn Hi Hroot Hnone. split; [exact Hn|].
  intros d Hd [q Hq].
  assert (Hq1 : 1 < q) by nia.
  destruct (Z_lt_le_dec d i) as [Hlt|Hge].
  - apply (Hnone d); [lia | now exists q].
  - apply (Hnone q); [nia | exists d; lia].
Qed.

Lemma divides_not_mod (n d : Z) : 0 < d -> n mod d <> 0 -> ~ (d | n).
Proof.
  intros Hd Hmod Hdiv. apply Hmod. apply Z.mod_divide; [lia | exact Hdiv].
Qed.

Lemma divides_multiple (n d k e : Z) : d = k * e -> (d | n) -> (k | n).
Proof.
  intros -> [q Hq]. exists (q * e). lia.
Qed.

(** One round of the loop extends the range without divisors by six. *)
Lemma six_more (n i : Z) :
  5 <= i -> i mod 6 = 5 ->
  n mod i <> 0 -> n mod (i + 2) <> 0 ->
  (forall d, 1 < d < i -> ~ (d | n)) ->
  forall d, 1 < d < i + 6 -> ~ (d | n).
Proof.
  intros Hi Hmod Hn0 Hn2 Hnone d Hd.
  assert (Hsix : i = 6 * (i / 6) + 5).
  { pose proof (Z.div_mod i 6) as H6. lia. }
  assert (Hcases : d < i \/ d = i \/ d = i + 1 \/ d = i + 2 \/ d = i + 3
                   \/ d = i + 4 \/ d = i + 5) by lia.
  destruct Hcases as [H|[H|[H|[H|[H|[H|H]]]]]].
  - apply Hnone. lia.
  - subst d. apply divides_not_mod; [lia | exact Hn0].
  - intro Hdiv. apply (Hnone 2); [lia|].
    apply (divides_multiple n d 2 (3 * (i / 6) + 3)); [lia | exact Hdiv].
  - subst d. apply divides_not_mod; [lia | exact Hn2].
  - intro Hdiv. apply (Hnone 2); [lia|].
    apply (divides_multiple n d 2 (3 * (i / 6) + 4)); [lia | exact Hdiv].
  - intro Hdiv. apply (Hnone 3); [lia|].
    apply (divides_multiple n d 3 (2 * (i / 6) + 3)); [lia | exact Hdiv].
  - intro Hdiv. apply (Hnone 2); [lia|].
    apply (divides_multiple n d 2 (3 * (i / 6) + 5)); [lia | exact Hdiv].
Qed.

(** The loop ends within the fuel and answers whether [n] is prime. *)
Lemma trial_division_correct (fuel : nat) :
  forall n i,
    5 <= i -> i mod 6 = 5 -> 3 < n ->
    (forall d, 1 < d < i -> ~ (d | n)) ->
    1 <= Z.of_nat fuel -> n - i + 1 <= Z.of_nat fuel ->
    exists b, trial_division fuel n i = Some b /\ (b = true <-> Z.prime n).
Proof.
  induction fuel as [|fuel IH]; intros n i Hi Hmod Hn Hnone Hfuel1 Hfuel; [lia|].
  simpl trial_division.
  destruct (i * i <=? n) eqn:Hroot.
  - apply Z.leb_le in Hroot.
    destruct ((n mod i =? 0) || (n mod (i + 2) =? 0)) eqn:Hdiv.
    + exists false. split; [reflexivity|].
      split; [discriminate|]. intros [_ Hprime]. exfalso.
      apply orb_true_iff in Hdiv. destruct Hdiv as [H|H]; apply Z.eqb_eq in H.
      * apply (Hprime i); [nia|]. apply Z.mod_divide; [lia | exact H].
      * apply (Hprime (i + 2)); [nia|]. apply Z.mod_divide; [lia | exact H].
    + apply orb_false_iff in Hdiv. destruct Hdiv as [H0 H2].
      apply Z.eqb_neq in H0, H2.
      apply IH; [lia | | lia | now apply six_more | nia | nia].
      replace (i + 6) with (i + 1 * 6) by lia.
      now rewrite Z_mod_plus_full.
  - apply Z.leb_gt in Hroot. exists true. split; [reflexivity|].
    split; [|reflexivity]. intros _.
    apply (no_divisor_below_root_prime n i); [lia | lia | exact Hroot | exact Hnone].
Qed.

(** X9. [is_prime] always returns, and it returns [True] exactly for the
    prime numbers: on zero, one and the negative numbers it says [False],
    and the steps of six in its loop miss no divisor. *)
Theorem is_prime_correct (n : Z) :
  exists b, is_prime n = Some b /\ (b = true <-> Znumtheory.prime n).
Proof.
  assert (H : exists b, is_prime n = Some b /\ (b = true <-> Z.prime n)).
  { unfold is_prime.
    destruct (n <=? 1) eqn:H1.
    { apply Z.leb_le in H1. exists false. split; [reflexivity|].
      split; [discriminate|]. intros [Hp _]. lia. }
    apply Z.leb_gt in H1.
    destruct (n <=? 3) eqn:H3.
    { apply Z.leb_le in H3. exists true. split; [reflexivity|].
      split; [|reflexivity]. intros _.
      assert (Hn : n = 2 \/ n = 3) by lia.
      destruct Hn as [->| ->]; [apply Z.prime_2 | apply Z.prime_3]. }
    apply Z.leb_gt in H3.
    destruct ((n mod 2 =? 0) || (n mod 3 =? 0)) eqn:Hdiv.
    { exists false. split; [reflexivity|].
      split; [discriminate|]. intros [_ Hprime]. exfalso.
      apply orb_true_iff in Hdiv. destruct Hdiv as [H|H]; apply Z.eqb_eq in H.
      - apply (Hprime 2); [lia|]. apply Z.mod_divide; [lia | exact H].
      - apply (Hprime 3); [lia|]. apply Z.mod_divide; [lia | exact H]. }
    apply orb_false_iff in Hdiv. destruct Hdiv as [H2 H3'].
    apply Z.eqb_neq in H2, H3'.
    apply trial_division_correct; try lia; try reflexivity.
    intros d Hd.
    assert (Hcases : d = 2 \/ d = 3 \/ d = 4) by lia.
    destruct Hcases as [->|[->| ->]].
    - apply divides_not_mod; [lia | exact H2].
    - apply divides_not_mod; [lia | exact H3'].
    - intro H4. apply (divides_not_mod n 2); [lia | exact H2 |].
      apply (divides_multiple n 4 2 2); [reflexivity | exact H4]. }
  destruct H as [b [Hb Hiff]]. exists b. split; [exact Hb|].
  rewrite Hiff. apply Znumtheory.prime_alt.
Qed.

Lemma is_prime_correct_witness : Znumtheory.prime 10007.
Proof.
  destruct (is_prime_correct 10007) as [b [Hb Hprime]].
  vm_compute in Hb. injection Hb as <-. now apply Hprime.
Defined.

End PrimeFacts.

(** * Facts about the duplicate check *)

Module ComplianceFacts.
Import Compliance.
Local Open Scope Z_scope.

(** The age in days of a transaction dated [k] days before the listing. *)
Lemma age_of_listed (listed today k : Z) :
  days_between today (start_of_day (day_of listed - k))
  = day_of today - day_of listed + k.
Proof.
  unfold days_between, start_of_day, day_of, seconds_per_day.
  replace (today - (listed / 86400 - k) * 86400)
    with (today + (k - listed / 86400) * 86400) by lia.
  rewrite Z.div_add by lia. lia.
Qed.

Lemma days_apart (listed today : Z) :
  listed <= today < listed + seconds_per_day ->
  0 <= day_of today - day_of listed <= 1.
Proof.
  unfold day_of, seconds_per_day. intros [Hle Hlt].
  pose proof (Z.div_le_mono listed today 86400 ltac:(lia) Hle) as H1.
  assert (H2 : today / 86400 <= (listed + 1 * 86400) / 86400)
    by (apply Z.div_le_mono; lia).
  rewrite Z.div_add in H2 by lia. lia.
Qed.

(** X10. Whatever the time of day, and even when midnight passes between
    the two readings of the clock, [check_duplicate_payment] reports a
    duplicate exactly for a payment of 500 to Staples with the memo
    "Quarterly supplies" and for a payment of 12000 to Globex with the memo
    "Confidential"; the Acme Corp payment of ten days ago never counts, and
    vendor and memo must match to the letter.  Without a duplicate the
    reason is "No recent duplicates found". *)
Theorem duplicates_whatever_the_time
    (format_amount : QArith_base.Q -> string) (format_date : Z -> string)
    (listed today : Z) (v : string) (a : QArith_base.Q) (m : string) :
  listed <= today < listed + seconds_per_day ->
  let verdict := check_duplicate_payment format_amount format_date listed today v a m in
  is_duplicate verdict
  = (String.eqb "Staples" v && String.eqb "Quarterly supplies" m
     && QArith_base.Qeq_bool (QArith_base.inject_Z 500) a)
    || (String.eqb "Globex" v && String.eqb "Confidential" m
        && QArith_base.Qeq_bool (QArith_base.inject_Z 12000) a)
  /\ (is_duplicate verdict = false -> reason verdict = "No recent duplicates found"%string).
Proof.
  intros Hclock verdict. subst verdict.
  pose proof (days_apart listed today Hclock) as Hdays.
  unfold check_duplicate_payment, get_previous_transactions.
  cbn [first_duplicate vendor memo amount date].
  rewrite !age_of_listed.
  replace (day_of today - day_of listed + 3 <=? 7) with true
    by (symmetry; apply Z.leb_le; lia).
  replace (day_of today - day_of listed + 10 <=? 7) with false
    by (symmetry; apply Z.leb_gt; lia).
  replace (day_of today - day_of listed + 5 <=? 7) with true
    by (symmetry; apply Z.leb_le; lia).
  rewrite !andb_true_r, !andb_false_r.
  destruct (String.eqb "Staples" v && String.eqb "Quarterly supplies" m
            && QArith_base.Qeq_bool (QArith_base.inject_Z 500) a);
    [split; [reflexivity | discriminate]|].
  destruct (String.eqb "Globex" v && String.eqb "Confidential" m
            && QArith_base.Qeq_bool (QArith_base.inject_Z 12000) a);
    split; try reflexivity; discriminate.
Qed.

(** One second before midnight and one second after it. *)
Lemma duplicates_whatever_the_time_witness :
  is_duplicate
    (check_duplicate_payment (fun _ => "500"%string) (fun _ => "1969-12-29"%string)
       86399 86401 "Staples" (QArith_base.Qmake 1000 2) "Quarterly supplies")
  = true.
Proof.
  apply (proj1 (duplicates_whatever_the_time
                  (fun _ => "500"%string) (fun _ => "1969-12-29"%string)
                  86399 86401 "Staples" (QArith_base.Qmake 1000 2)
                  "Quarterly supplies" ltac:(unfold seconds_per_day; lia))).
Defined.

End ComplianceFacts.

(** * Facts about the gallery page *)

Module GalleryFacts.
Import Gallery.

Lemma split_comma_not_nil (s : string) : split_comma s <> [].
Proof.
  destruct s as [|c s]; simpl; [discriminate|].
  destruct (Ascii.eqb c ","); [discriminate|].
  destruct (split_comma s); discriminate.
Qed.

Lemma split_comma_free (t : string) : comma_free t -> split_comma t = [t].
Proof.
  unfold comma_free. induction t as [|c t IH]; simpl; [reflexivity|].
  intro H. inversion H as [|? ? Hc Ht]; subst.
  now rewrite Hc, (IH Ht).
Qed.

Lemma split_comma_app (t s : string) :
  comma_free t -> split_comma (t ++ String "," s) = t :: split_comma s.
Proof.
  unfold comma_free. induction t as [|c t IH]; simpl; [reflexivity|].
  intro H. inversion H as [|? ? Hc Ht]; subst.
  now rewrite Hc, (IH Ht).
Qed.

(** Splitting what was joined gives the tags back. *)
Lemma split_join (tags : list string) :
  tags <> [] -> Forall comma_free tags ->
  split_comma (join_comma tags) = tags.
Proof.
  unfold join_comma. induction tags as [|t tags IH]; [now intros H|].
  intros _ H. inversion H as [|? ? Ht Htags]; subst.
  destruct tags as [|t' tags].
  - simpl. now apply split_comma_free.
  - change (String.concat "," (t :: t' :: tags))
      with (t ++ String "," (String.concat "," (t' :: tags)))%string.
    rewrite (split_comma_app _ _ Ht), IH; [reflexivity | discriminate | exact Htags].
Qed.

Lemma join_empty (tags : list string) :
  join_comma tags = ""%string -> tags = [] \/ tags = [""%string].
Proof.
  unfold join_comma. destruct tags as [|t [|t' tags]]; simpl.
  - now left.
  - intros ->. now right.
  - intro H. destruct t; discriminate H.
Qed.

Lemma get_delete_same (params : SearchParams) (name : string) :
  get (delete params name) name = None.
Proof.
  induction params as [|[k v] params IH]; simpl; [reflexivity|].
  destruct (String.eqb k name) eqn:Hk; simpl; [exact IH|].
  now rewrite Hk.
Qed.

Lemma get_delete_other (params : SearchParams) (name other : string) :
  other <> name -> get (delete params name) other = get params other.
Proof.
  intro Hother. induction params as [|[k v] params IH]; simpl; [reflexivity|].
  destruct (String.eqb k name) eqn:Hk; simpl.
  - apply String.eqb_eq in Hk. subst k.
    apply not_eq_sym, String.eqb_neq in Hother. now rewrite Hother.
  - now rewrite IH.
Qed.

Lemma get_set_same (params : SearchParams) (name value : string) :
  get (set params name value) name = Some value.
Proof.
  induction params as [|[k v] params IH]; simpl.
  - now rewrite String.eqb_refl.
  - destruct (String.eqb k name) eqn:Hk; simpl.
    + now rewrite String.eqb_refl.
    + now rewrite Hk.
Qed.

Lemma get_set_other (params : SearchParams) (name value other : string) :
  other <> name -> get (set params name value) other = get params other.
Proof.
  intro Hother. pose proof Hother as Hneq.
  apply not_eq_sym, String.eqb_neq in Hneq.
  induction params as [|[k v] params IH]; simpl.
  - now rewrite Hneq.
  - destruct (String.eqb k name) eqn:Hk; simpl.
    + apply String.eqb_eq in Hk. subst k. rewrite Hneq.
      now apply get_delete_other.
    + now rewrite IH.
Qed.

(** Reading the address after writing tags to it. *)
Lemma read_after_update (tags : list string) (location_search : SearchParams) :
  Forall comma_free tags -> tags <> [""%string] ->
  getTagsFromURL (updateURL tags location_search) = tags.
Proof.
  intros Hfree Hnot. unfold getTagsFromURL, updateURL.
  destruct tags as [|t tags]; simpl List.length; cbv iota beta.
  - simpl. now rewrite get_delete_same.
  - change (Nat.ltb 0 (S (List.length tags))) with true. cbv iota.
    rewrite get_set_same.
    destruct (String.eqb (join_comma (t :: tags)) "") eqn:Hj.
    + apply String.eqb_eq, join_empty in Hj.
      destruct Hj as [Hj|Hj]; [discriminate Hj | now elim Hnot].
    + apply split_join; [discriminate | exact Hfree].
Qed.

(** X11. The tags written to the address by [updateURL] are the tags that
    [getTagsFromURL] reads back, for any tags without a comma in them; the
    one exception is the single empty tag, which reads back as no tag. *)
Theorem tags_survive_the_address (tags : list string) (location_search : SearchParams) :
  (Forall comma_free tags -> tags <> [""%string] ->
   getTagsFromURL (updateURL tags location_search) = tags)
  /\ getTagsFromURL (updateURL [""%string] location_search) = [].
Proof.
  split.
  - apply read_after_update.
  - unfold getTagsFromURL, updateURL. simpl. now rewrite get_set_same.
Qed.

(** X12. [updateURL] touches nothing but [tags]: every other parameter of
    the address reads as before, and [tags] occurs at most once afterwards. *)
Theorem updateURL_keeps_other_parameters
    (tags : list string) (location_search : SearchParams) (name : string) :
  (name <> "tags"%string ->
   get (updateURL tags location_search) name = get location_search name)
  /\ List.length (filter (fun kv => String.eqb (fst kv) "tags")
                    (updateURL tags location_search)) <= 1.
Proof.
  split.
  - intro Hname. unfold updateURL.
    destruct (Nat.ltb 0 (List.length tags));
      [now apply get_set_other | now apply get_delete_other].
  - unfold updateURL.
    assert (Hdel : forall p, filter (fun kv => String.eqb (fst kv) "tags")
                               (delete p "tags") = []).
    { induction p as [|[k v] p IH]; simpl; [reflexivity|].
      destruct (String.eqb k "tags") eqn:Hk; simpl; [exact IH|].
      now rewrite Hk. }
    destruct (Nat.ltb 0 (List.length tags)); [|rewrite Hdel; simpl; lia].
    induction location_search as [|[k v] p IH]; simpl; [lia|].
    destruct (String.eqb k "tags") eqn:Hk; simpl.
    + rewrite Hdel. simpl. lia.
    + rewrite Hk. exact IH.
Qed.

Lemma includes_app (tags more : list string) (tag : string) :
  includes (tags ++ more) tag = includes tags tag || includes more tag.
Proof. unfold includes. apply existsb_app. Qed.

Lemma includes_In (tags : list string) (tag : string) :
  includes tags tag = true <-> In tag tags.
Proof.
  unfold includes. rewrite existsb_exists. split.
  - intros [x [Hx Heq]]. apply String.eqb_eq in Heq. now subst.
  - intro H. exists tag. split; [exact H | apply String.eqb_refl].
Qed.

(** X13. With tags selected a card is on display when it carries one of
    them: a further tag adds the cards that carry it and hides none, and the
    order of the selection does not matter.  Only the step from no
    selection to the first tag can hide cards. *)
Theorem selection_is_a_union (selected : list string) (tag : string)
    (cardTags : list string) :
  (selected <> [] ->
   displayed (selected ++ [tag]) cardTags
   = displayed selected cardTags || includes cardTags tag)
  /\ displayed (selected ++ [tag]) cardTags = displayed (tag :: selected) cardTags
  /\ displayed [] cardTags = true
  /\ displayed [tag] cardTags = includes cardTags tag.
Proof.
  unfold displayed. repeat split.
  - intro Hsel. rewrite existsb_app, length_app. simpl.
    destruct selected; [now elim Hsel|]. simpl. now rewrite orb_false_r.
  - rewrite existsb_app, length_app. simpl.
    replace (Nat.eqb (List.length selected + 1) 0) with false
      by (symmetry; apply Nat.eqb_neq; lia).
    simpl. rewrite orb_false_r. apply orb_comm.
  - simpl. now rewrite orb_false_r.
Qed.

(** X14. A click on a tag selects it; it never hides a card that carries
    the tag; a selection without repetitions stays without; and a second
    click on the same tag changes nothing. *)
Theorem click_on_a_tag (cards : list (list string)) (tag : string) (st : State) :
  includes (selectedTags (on_tag_click cards tag st)) tag = true
  /\ (includes (selectedTags st) tag = false ->
      forall i cardTags,
        nth_error cards i = Some cardTags -> includes cardTags tag = true ->
        nth_error (display (on_tag_click cards tag st)) i = Some true)
  /\ (NoDup (selectedTags st) -> NoDup (selectedTags (on_tag_click cards tag st)))
  /\ on_tag_click cards tag (on_tag_click cards tag st) = on_tag_click cards tag st.
Proof.
  unfold on_tag_click.
  destruct (includes (selectedTags st) tag) eqn:Hin; simpl.
  - rewrite Hin. simpl. repeat split; try discriminate; auto.
  - assert (Hnew : includes (selectedTags st ++ [tag]) tag = true).
    { rewrite includes_app. unfold includes at 2. simpl.
      rewrite String.eqb_refl. apply orb_true_r. }
    split; [exact Hnew|]. rewrite Hnew. simpl. split; [|split; [|reflexivity]].
    + intros _ i cardTags Hcard Htag.
      rewrite nth_error_map, Hcard. simpl. f_equal.
      unfold displayed. rewrite existsb_app. simpl. rewrite Htag.
      now rewrite !orb_true_r.
    + intro Hnodup. apply NoDup_app; [exact Hnodup | repeat constructor; intros [] |].
      intros x Hx [<-|[]].
      apply includes_In in Hx. now rewrite Hx in Hin.
Qed.

(** X15. After a click on a tag the address says what is selected: going
    back to that address ([popstate]) restores the very same state, as long
    as no tag has a comma in it and the tag is not empty. *)
Theorem address_follows_the_selection
    (cards : list (list string)) (tag : string) (st : State) :
  Forall comma_free (selectedTags st) -> comma_free tag ->
  tag <> ""%string -> includes (selectedTags st) tag = false ->
  on_popstate cards (on_tag_click cards tag st) = on_tag_click cards tag st.
Proof.
  intros Hfree Htag Hne Hin. unfold on_tag_click. rewrite Hin. simpl negb. cbv iota.
  unfold on_popstate, handleTagChange, filterItems. simpl.
  rewrite (read_after_update (selectedTags st ++ [tag]) (location_search st)).
  - reflexivity.
  - apply Forall_app. split; [exact Hfree | now repeat constructor].
  - destruct (selectedTags st) as [|t [|t' l]]; simpl; try discriminate.
    intro H. injection H as H. now elim Hne.
Qed.

Lemma unique_spec (tags seen : list string) :
  NoDup (unique seen tags)
  /\ forall t, In t (unique seen tags) <-> In t tags /\ ~ In t seen.
Proof.
  revert seen; induction tags as [|x tags IH]; intro seen; simpl.
  - split; [constructor | intro t; tauto].
  - destruct (includes seen x) eqn:Hx.
    + destruct (IH seen) as [Hnd Hin]. split; [exact Hnd|].
      intro t. rewrite Hin. apply includes_In in Hx.
      split; [tauto|]. intros [[<-|Ht] Hs]; [now elim Hs | tauto].
    + destruct (IH (x :: seen)) as [Hnd Hin].
      assert (Hnx : ~ In x seen).
      { intro H. apply includes_In in H. now rewrite H in Hx. }
      split.
      * constructor; [|exact Hnd]. rewrite Hin. simpl. tauto.
      * intro t. simpl. rewrite Hin. simpl.
        destruct (string_dec x t) as [<-|Hneq]; tauto.
Qed.

(** X16. The filter offers every tag of every gallery item, each once. *)
Theorem allTags_each_once (galleryItems : list (list string)) :
  NoDup (allTags galleryItems)
  /\ forall t, In t (allTags galleryItems)
               <-> exists tags, In tags galleryItems /\ In t tags.
Proof.
  unfold allTags.
  destruct (unique_spec (flat_map (fun tags => tags) galleryItems) []) as [Hnd Hin].
  split; [exact Hnd|].
  intro t. rewrite Hin, in_flat_map. simpl. tauto.
Qed.

Lemma tags_survive_the_address_witness :
  getTagsFromURL
    (updateURL ["rag"; "group chat"]%string [("page", "2"); ("tags", "tools")]%string)
  = ["rag"; "group chat"]%string.
Proof.
  apply (proj1 (tags_survive_the_address ["rag"; "group chat"]%string
                  [("page", "2"); ("tags", "tools")]%string)).
  - unfold comma_free. repeat constructor.
  - discriminate.
Defined.

Lemma updateURL_keeps_other_parameters_witness :
  get (updateURL ["rag"]%string [("page", "2"); ("tags", "tools")]%string) "page"
  = Some "2"%string.
Proof.
  apply (proj1 (updateURL_keeps_other_parameters ["rag"]%string
                  [("page", "2"); ("tags", "tools")]%string "page")).
  discriminate.
Defined.

Lemma selection_is_a_union_witness :
  displayed (["rag"%string] ++ ["chess"%string]) ["chess"; "tools"]%string = true.
Proof.
  rewrite (proj1 (selection_is_a_union ["rag"]%string "chess"
                    ["chess"; "tools"]%string)); [reflexivity | discriminate].
Defined.

Lemma click_on_a_tag_witness :
  nth_error
    (display
       (on_tag_click [["rag"; "tools"]; ["chess"]]%string "chess"
          {| selectedTags := ["rag"]%string;
             location_search := [("tags", "rag")]%string;
             display := [true; false] |}))
    1
  = Some true.
Proof.
  apply (proj1 (proj2 (click_on_a_tag [["rag"; "tools"]; ["chess"]]%string "chess"
                         {| selectedTags := ["rag"]%string;
                            location_search := [("tags", "rag")]%string;
                            display := [true; false] |}))
           eq_refl 1 ["chess"]%string eq_refl eq_refl).
Defined.

Lemma address_follows_the_selection_witness :
  on_popstate [["rag"; "tools"]; ["chess"]]%string
    (on_tag_click [["rag"; "tools"]; ["chess"]]%string "chess"
       {| selectedTags := ["rag"]%string;
          location_search := [("tags", "rag")]%string;
          display := [true; false] |})
  = {| selectedTags := ["rag"; "chess"]%string;
       location_search := [("tags", "rag,chess")]%string;
       display := [true; true] |}.
Proof.
  rewrite (address_follows_the_selection [["rag"; "tools"]; ["chess"]]%string "chess"
             {| selectedTags := ["rag"]%string;
                location_search := [("tags", "rag")]%string;
                display := [true; false] |}).
  - reflexivity.
  - unfold comma_free. repeat constructor.
  - unfold comma_free. repeat constructor.
  - discriminate.
  - reflexivity.
Defined.

End GalleryFacts.
